(** * mushroom1: the file-management and sign-in workflows

    A shallow embedding of [src/services/fileService.ts], of the upload
    handler of the documents page and of the sign-in / registration handlers
    of the login page, over a model of the three hosted services the code
    talks to through the Firebase SDK: the object store, the document
    database and the identity provider.

    - JavaScript objects are finite maps from property names to values.
    - An [async] function is a computation over the state of the hosted
      services that either resolves with a value or rejects with an error;
      [await] sequences, [try { } catch { }] is [try_catch].
    - Whether an SDK call fails, and every reading that comes from outside
      the code (clock, download URL, the provider's verdict on credentials),
      is an input: the record [Env].  A call that does not fail has the
      effect the SDK documents.
    - Every SDK call issued is appended to [sdk_log], so that "the call is
      not attempted" is a statement about the log. *)

From Stdlib Require Import ZArith.
From stdpp Require Import gmap strings list fin_maps sorting.

Local Open Scope string_scope.
Local Open Scope list_scope.
Local Open Scope Z_scope.

(** ** JavaScript values and objects *)

Inductive Value : Type :=
  | VUndefined
  | VNumber (n : Z)
  | VTimestamp (ms : Z)
  | VString (s : string).

#[global] Instance Value_eq_dec : EqDecision Value.
Proof. solve_decision. Defined.

#[global] Instance Value_inhabited : Inhabited Value := populate VUndefined.

Abbreviation JsObject := (gmap string Value).

(** Property read [o.k]: a missing property reads as [undefined]. *)
Definition js_get (o : JsObject) (k : string) : Value :=
  default VUndefined (o !! k).

(** The browser's [File]: what the code reads of it, and its bytes. *)
Record File : Type := mkFile {
  file_name : string;
  file_size : Z;
  file_type : string;
  file_content : list Byte.byte
}.

(** An error thrown by the SDK: [error.code] and [error.message]. *)
Record FirebaseError : Type := mkError {
  err_code : string;
  err_message : string
}.

Record FirebaseUser : Type := mkUser {
  uid : string;
  user_email : string;
  user_displayName : option string;
  user_photoURL : option string
}.

#[global] Instance FirebaseUser_eq_dec : EqDecision FirebaseUser.
Proof. solve_decision. Defined.

(** ** The hosted services *)

Inductive Direction : Type := Asc | Desc.

#[global] Instance Direction_eq_dec : EqDecision Direction.
Proof. solve_decision. Defined.

Inductive SdkCall : Type :=
  | CallUploadBytes (path : string)
  | CallGetDownloadURL (path : string)
  | CallAddDoc (owner : string) (data : JsObject)
  | CallDeleteObject (path : string)
  | CallDeleteDoc (owner : string) (id : string)
  | CallGetDocs (owner : string) (field : string) (dir : Direction)
  | CallSignIn (email : string) (password : string)
  | CallCreateUser (email : string) (password : string)
  | CallUpdateProfile (user : string) (name : string) (photo : string)
  | CallSetDoc (user : string) (data : JsObject).

#[global] Instance SdkCall_eq_dec : EqDecision SdkCall.
Proof. solve_decision. Defined.

Record Cloud : Type := mkCloud {
  storage : gmap string (list Byte.byte);
  files_db : gmap string (gmap string JsObject);
  users_db : gmap string JsObject;
  auth_accounts : gmap string FirebaseUser;
  auth_currentUser : option FirebaseUser;
  sdk_log : list SdkCall
}.

Definition empty_cloud : Cloud := mkCloud ∅ ∅ ∅ ∅ None [].

Definition set_storage (f : gmap string (list Byte.byte) → gmap string (list Byte.byte))
    (c : Cloud) : Cloud :=
  mkCloud (f (storage c)) (files_db c) (users_db c) (auth_accounts c)
          (auth_currentUser c) (sdk_log c).

Definition set_files_db (f : gmap string (gmap string JsObject) → gmap string (gmap string JsObject))
    (c : Cloud) : Cloud :=
  mkCloud (storage c) (f (files_db c)) (users_db c) (auth_accounts c)
          (auth_currentUser c) (sdk_log c).

Definition set_users_db (f : gmap string JsObject → gmap string JsObject)
    (c : Cloud) : Cloud :=
  mkCloud (storage c) (files_db c) (f (users_db c)) (auth_accounts c)
          (auth_currentUser c) (sdk_log c).

Definition set_auth (accounts : gmap string FirebaseUser) (cur : option FirebaseUser)
    (c : Cloud) : Cloud :=
  mkCloud (storage c) (files_db c) (users_db c) accounts cur (sdk_log c).

Definition log_call (e : SdkCall) (c : Cloud) : Cloud :=
  mkCloud (storage c) (files_db c) (users_db c) (auth_accounts c)
          (auth_currentUser c) (sdk_log c ++ [e]).

(** The collection [users/{owner}/files]; a collection that was never
    written is empty. *)
Definition files_of (c : Cloud) (owner : string) : gmap string JsObject :=
  files_db c !!! owner.

(** What the outside decides during one operation. *)
Record Env : Type := mkEnv {
  uploadBytes_fault : option FirebaseError;
  getDownloadURL_result : FirebaseError + string;
  addDoc_fault : option FirebaseError;
  deleteObject_fault : option FirebaseError;
  deleteDoc_fault : option FirebaseError;
  getDocs_fault : option FirebaseError;
  date_now_iso : string;
  timestamp_now : Z;
  signIn_result : FirebaseError + FirebaseUser;
  createUser_result : FirebaseError + FirebaseUser;
  updateProfile_fault : option FirebaseError;
  setDoc_fault : option FirebaseError
}.

(** ** Asynchronous computations

    [Async S A]: an [async] function body over a state [S], resolving with
    an [A] or rejecting with the error thrown. *)

Definition Async (S A : Type) : Type := S → (FirebaseError + A) * S.

Definition resolve {S A} (a : A) : Async S A := λ s, (inr a, s).

Definition reject {S A} (e : FirebaseError) : Async S A := λ s, (inl e, s).

Definition await {S A B} (m : Async S A) (k : A → Async S B) : Async S B :=
  λ s, match m s with
       | (inl e, s') => (inl e, s')
       | (inr a, s') => k a s'
       end.

Definition try_catch {S A} (body : Async S A) (handler : FirebaseError → Async S A)
    : Async S A :=
  λ s, match body s with
       | (inl e, s') => handler e s'
       | (inr a, s') => (inr a, s')
       end.

(** [try { body } finally { fin }]: [fin] runs either way; an error of
    [body] is thrown again after it. *)
Definition try_finally {S A} (body : Async S A) (fin : Async S unit) : Async S A :=
  λ s, match body s with
       | (r, s') => match fin s' with
                    | (inl e, s'') => (inl e, s'')
                    | (inr _, s'') => (r, s'')
                    end
       end.

Notation "'let!' x ':=' m 'in' k" := (await m (λ x, k))
  (at level 10, x binder, m at level 100, k at level 200).
Notation "m ';;' k" := (await m (λ _, k))
  (at level 100, k at level 200, right associativity).

(** A component's handler runs over the component's state and the hosted
    services. *)
Definition lift_cloud {V A} (m : Async Cloud A) : Async (V * Cloud) A :=
  λ s, let '(r, c') := m s.2 in (r, (s.1, c')).

Definition set_state {V} (f : V → V) : Async (V * Cloud) unit :=
  λ s, (inr tt, (f s.1, s.2)).

(** An SDK call: it is logged, then fails if the environment says so and
    otherwise takes effect. *)
Definition sdk_call {A} (e : SdkCall) (fault : option FirebaseError)
    (effect : Cloud → A * Cloud) : Async Cloud A :=
  λ c, match fault with
       | Some err => (inl err, log_call e c)
       | None => let '(a, c') := effect (log_call e c) in (inr a, c')
       end.

(** ** The SDK, as far as the code uses it *)

Section Sdk.
Context (env : Env).

(** [uploadBytes(ref(storage, path), file)]: writes the bytes at [path],
    replacing what was there; the snapshot's [ref] is the reference
    written to. *)
Definition uploadBytes (path : string) (file : File) : Async Cloud string :=
  sdk_call (CallUploadBytes path) (uploadBytes_fault env)
    (λ c, (path, set_storage (insert path (file_content file)) c)).

(** [getDownloadURL(ref)]. *)
Definition getDownloadURL (path : string) : Async Cloud string :=
  λ c, match getDownloadURL_result env with
       | inl err => (inl err, log_call (CallGetDownloadURL path) c)
       | inr url => (inr url, log_call (CallGetDownloadURL path) c)
       end.

(** [addDoc(collection(db, "users", owner, "files"), data)]: stores [data]
    under an id the database picks, not in use in the collection, and
    returns the id. *)
Definition addDoc (owner : string) (data : JsObject) : Async Cloud string :=
  sdk_call (CallAddDoc owner data) (addDoc_fault env)
    (λ c, let id := fresh (dom (files_of c owner)) in
          (id, set_files_db (insert owner (<[id := data]> (files_of c owner))) c)).

(** [deleteObject(ref(storage, path))]. *)
Definition deleteObject (path : string) : Async Cloud unit :=
  sdk_call (CallDeleteObject path) (deleteObject_fault env)
    (λ c, (tt, set_storage (delete path) c)).

(** [deleteDoc(doc(db, "users", owner, "files", id))]. *)
Definition deleteDoc (owner id : string) : Async Cloud unit :=
  sdk_call (CallDeleteDoc owner id) (deleteDoc_fault env)
    (λ c, (tt, set_files_db (insert owner (delete id (files_of c owner))) c)).
End Sdk.

(** *** Ordered queries

    The database orders values of one type by value and values of different
    types by type; documents that agree on the ordering field are ordered by
    document id, in the direction of the query; a document without the
    ordering field is not part of the result. *)

Definition type_rank (v : Value) : nat :=
  match v with
  | VUndefined => 0%nat
  | VNumber _ => 1%nat
  | VTimestamp _ => 2%nat
  | VString _ => 3%nat
  end.

Definition value_le (v1 v2 : Value) : Prop :=
  match v1, v2 with
  | VNumber a, VNumber b => a ≤ b
  | VTimestamp a, VTimestamp b => a ≤ b
  | VString a, VString b => String.le a b
  | _, _ => (type_rank v1 ≤ type_rank v2)%nat
  end.

#[global] Instance value_le_dec : RelDecision value_le.
Proof. intros [] []; simpl; apply _. Defined.

Definition doc_le (field : string) (x y : string * JsObject) : Prop :=
  value_le (js_get x.2 field) (js_get y.2 field) ∧
  (value_le (js_get y.2 field) (js_get x.2 field) → String.le x.1 y.1).

#[global] Instance doc_le_dec field : RelDecision (doc_le field).
Proof. intros x y. unfold doc_le. apply _. Defined.

Definition query_order (field : string) (dir : Direction) : relation (string * JsObject) :=
  match dir with
  | Asc => doc_le field
  | Desc => flip (doc_le field)
  end.

#[global] Instance query_order_dec field dir : RelDecision (query_order field dir).
Proof. destruct dir; simpl; intros x y; apply _. Defined.

Definition has_field (field : string) (x : string * JsObject) : Prop :=
  is_Some (x.2 !! field).

#[global] Instance has_field_dec field x : Decision (has_field field x).
Proof. unfold has_field. apply _. Defined.

(** The documents [query(coll, orderBy(field, dir))] selects, in order. *)
Definition run_query (coll : gmap string JsObject) (field : string) (dir : Direction)
    : list (string * JsObject) :=
  merge_sort (query_order field dir) (filter (has_field field) (map_to_list coll)).

(** [getDocs(query(collection(db, "users", owner, "files"), orderBy(field, dir)))]. *)
Definition getDocs (env : Env) (owner field : string) (dir : Direction)
    : Async Cloud (list (string * JsObject)) :=
  sdk_call (CallGetDocs owner field dir) (getDocs_fault env)
    (λ c, (run_query (files_of c owner) field dir, c)).

(** ** [src/services/fileService.ts] *)

(** [ApiResponse<T>], declared in [src/types] (not among the sources at
    hand): the fields are those the object literals of the service set and
    the pages read, [success] always, [message] and [data] when present. *)
Record ApiResponse (T : Type) : Type := mkResponse {
  success : bool;
  message : option string;
  data : option T
}.
Arguments mkResponse {T} _ _ _.
Arguments success {T} _.
Arguments message {T} _.
Arguments data {T} _.

Definition storage_path (owner name : string) : string :=
  "user_uploads/" +:+ owner +:+ "/" +:+ name.

(** The object literal [fileData] of [uploadUserFile].  It has no [id]
    property, so in [{ id: docRef.id, ...fileData }] the spread leaves [id]
    as set. *)
Definition fileData (file : File) (downloadUrl path uploadDate : string) (createdAt : Z)
    : JsObject :=
  <["name" := VString (file_name file)]>
  (<["size" := VNumber (file_size file)]>
  (<["type" := VString (file_type file)]>
  (<["downloadUrl" := VString downloadUrl]>
  (<["storagePath" := VString path]>
  (<["uploadDate" := VString uploadDate]>
  (<["createdAt" := VTimestamp createdAt]> ∅)))))).

(** The object pushed by the [forEach] callback of [getUserFiles]. *)
Definition user_file (d : string * JsObject) : JsObject :=
  <["id" := VString d.1]>
  (<["name" := js_get d.2 "name"]>
  (<["size" := js_get d.2 "size"]>
  (<["type" := js_get d.2 "type"]>
  (<["downloadUrl" := js_get d.2 "downloadUrl"]>
  (<["storagePath" := js_get d.2 "storagePath"]>
  (<["uploadDate" := js_get d.2 "uploadDate"]> ∅)))))).

Section FileService.
Context (env : Env).

Definition uploadUserFile (file : File) (owner : string) : Async Cloud (ApiResponse JsObject) :=
  try_catch
    (let storagePath := storage_path owner (file_name file) in
     let! snapshot_ref := uploadBytes env storagePath file in
     let! downloadUrl := getDownloadURL env snapshot_ref in
     let data := fileData file downloadUrl storagePath
                   (date_now_iso env) (timestamp_now env) in
     let! docId := addDoc env owner data in
     resolve (mkResponse true None (Some (<["id" := VString docId]> data))))
    (λ error, resolve (mkResponse false (Some (err_message error)) None)).

Definition deleteUserFile (fileId path owner : string) : Async Cloud (ApiResponse bool) :=
  try_catch
    (deleteObject env path;;
     deleteDoc env owner fileId;;
     resolve (mkResponse true (Some "File deleted successfully") None))
    (λ error, resolve (mkResponse false (Some (err_message error)) None)).

Definition getUserFiles (owner : string) : Async Cloud (ApiResponse (list JsObject)) :=
  try_catch
    (let! querySnapshot := getDocs env owner "createdAt" Desc in
     let files := foldl (λ (files : list JsObject) d, files ++ [user_file d]) [] querySnapshot in
     resolve (mkResponse true None (Some files)))
    (λ error, resolve (mkResponse false (Some (err_message error)) None)).
End FileService.


(** ** The identity provider and the profile store *)

Section AuthSdk.
Context (env : Env).

(** [signInWithEmailAndPassword(auth, email, password)]: the provider
    decides; on success the session's current user is set. *)
Definition signInWithEmailAndPassword (email password : string) : Async Cloud FirebaseUser :=
  λ c, let c := log_call (CallSignIn email password) c in
       match signIn_result env with
       | inl err => (inl err, c)
       | inr user => (inr user, set_auth (auth_accounts c) (Some user) c)
       end.

(** [createUserWithEmailAndPassword(auth, email, password)]: on success
    the new identity is recorded and signed in. *)
Definition createUserWithEmailAndPassword (email password : string) : Async Cloud FirebaseUser :=
  λ c, let c := log_call (CallCreateUser email password) c in
       match createUser_result env with
       | inl err => (inl err, c)
       | inr user => (inr user, set_auth (<[uid user := user]> (auth_accounts c)) (Some user) c)
       end.

(** [updateProfile(user, { displayName, photoURL })]. *)
Definition updateProfile (user : FirebaseUser) (name photo : string) : Async Cloud unit :=
  sdk_call (CallUpdateProfile (uid user) name photo) (updateProfile_fault env)
    (λ c, let user' := mkUser (uid user) (user_email user) (Some name) (Some photo) in
          (tt, set_auth (<[uid user := user']> (auth_accounts c))
                        (if decide (uid <$> auth_currentUser c = Some (uid user))
                         then Some user' else auth_currentUser c) c)).

(** [setDoc(doc(db, "users", user), data)]. *)
Definition setDoc (user : string) (data : JsObject) : Async Cloud unit :=
  sdk_call (CallSetDoc user data) (setDoc_fault env)
    (λ c, (tt, set_users_db (insert user data) c)).
End AuthSdk.

(** [a || b] on strings that may be [undefined]: the empty string and
    [undefined] are falsy. *)
Definition or_else (a : option string) (b : string) : string :=
  match a with
  | Some s => if decide (s = "") then b else s
  | None => b
  end.

(** ** The documents page ([DocumentsPage]) *)

Record DocumentsPage : Type := mkDocumentsPage {
  files : list JsObject;
  loading : bool;
  uploading : bool;
  error : option string;
  fileInput : option string
}.

Definition setFiles (l : list JsObject) (v : DocumentsPage) : DocumentsPage :=
  mkDocumentsPage l (loading v) (uploading v) (error v) (fileInput v).
Definition setLoading (b : bool) (v : DocumentsPage) : DocumentsPage :=
  mkDocumentsPage (files v) b (uploading v) (error v) (fileInput v).
Definition setUploading (b : bool) (v : DocumentsPage) : DocumentsPage :=
  mkDocumentsPage (files v) (loading v) b (error v) (fileInput v).
Definition setError (e : option string) (v : DocumentsPage) : DocumentsPage :=
  mkDocumentsPage (files v) (loading v) (uploading v) e (fileInput v).
(** [if (fileInputRef.current) fileInputRef.current.value = ''] *)
Definition resetInput (v : DocumentsPage) : DocumentsPage :=
  mkDocumentsPage (files v) (loading v) (uploading v) (error v)
    (match fileInput v with Some _ => Some "" | None => None end).

Section DocumentsPageHandlers.
Context (env : Env) (currentUser : option FirebaseUser).

Definition fetchFiles : Async (DocumentsPage * Cloud) unit :=
  match currentUser with
  | None => resolve tt
  | Some user =>
      set_state (setLoading true);;
      let! res := lift_cloud (getUserFiles env (uid user)) in
      (match success res, data res with
       | true, Some l => set_state (setFiles l)
       | _, _ => set_state (setError (Some (or_else (message res) "Failed to load files")))
       end);;
      set_state (setLoading false)
  end.

(** [e.target.files] is [null] or the list of the selected files.  The
    first three cases are the guard
    [!e.target.files || e.target.files.length === 0 || !currentUser];
    [file] is [e.target.files[0]]. *)
Definition handleFileUpload (target_files : option (list File))
    : Async (DocumentsPage * Cloud) unit :=
  match target_files, currentUser with
  | None, _ | Some [], _ | _, None => resolve tt
  | Some (file :: _), Some user =>
      set_state (setUploading true);;
      set_state (setError None);;
      let! res := lift_cloud (uploadUserFile env file (uid user)) in
      (if success res
       then fetchFiles
       else set_state (setError (Some (or_else (message res) "Upload failed"))));;
      set_state (setUploading false);;
      set_state resetInput
  end.
End DocumentsPageHandlers.

(** ** The login page ([Login]) *)

Record Login : Type := mkLogin {
  email : string;
  password : string;
  repeatPassword : string;
  displayName : string;
  photoFile : option File;
  errorMsg : string;
  isProcessing : bool
}.

Definition setErrorMsg (m : string) (v : Login) : Login :=
  mkLogin (email v) (password v) (repeatPassword v) (displayName v) (photoFile v)
          m (isProcessing v).
Definition setIsProcessing (b : bool) (v : Login) : Login :=
  mkLogin (email v) (password v) (repeatPassword v) (displayName v) (photoFile v)
          (errorMsg v) b.

(** The object written to [users/{uid}] at registration. *)
Definition profile_doc (name email photo : string) : JsObject :=
  <["name" := VString name]>
  (<["email" := VString email]>
  (<["photoFileName" := VString photo]> ∅)).

Definition invalid_credentials_code (code : string) : bool :=
  bool_decide (code = "auth/invalid-credential") ||
  bool_decide (code = "auth/user-not-found") ||
  bool_decide (code = "auth/wrong-password").

Section LoginHandlers.
Context (env : Env).

(** The handlers read the form fields of the render they were created in:
    [form].  [e.preventDefault()] has no effect on the state modelled. *)
Definition handleFirebaseLogin (form : Login) : Async (Login * Cloud) unit :=
  set_state (setIsProcessing true);;
  set_state (setErrorMsg "");;
  try_finally
    (try_catch
       (let! cred := lift_cloud (signInWithEmailAndPassword env (email form) (password form)) in
        resolve tt)
       (λ error,
          if invalid_credentials_code (err_code error)
          then set_state (setErrorMsg "password or email incorrect")
          else set_state (setErrorMsg (err_message error))))
    (set_state (setIsProcessing false)).

Definition handleFirebaseRegister (form : Login) : Async (Login * Cloud) unit :=
  set_state (setErrorMsg "");;
  if decide (password form ≠ repeatPassword form)
  then set_state (setErrorMsg "Passwords do not match")
  else
    set_state (setIsProcessing true);;
    try_finally
      (try_catch
         (let! user := lift_cloud (createUserWithEmailAndPassword env (email form) (password form)) in
          let fileName := match photoFile form with
                          | Some f => file_name f
                          | None => "default-avatar.png"
                          end in
          lift_cloud (updateProfile env user
                        (or_else (Some (displayName form)) "New User") fileName);;
          lift_cloud (setDoc env (uid user)
                        (profile_doc (or_else (Some (displayName form)) "New User")
                                     (email form) fileName)))
         (λ error,
            if bool_decide (err_code error = "auth/email-already-in-use")
            then set_state (setErrorMsg "user already exist, sign in?")
            else set_state (setErrorMsg (err_message error))))
      (set_state (setIsProcessing false)).
End LoginHandlers.

(** ** Vocabulary of the statements *)

(** The response of a failed operation: [{ success: false, message }]. *)
Definition failure {T} (e : FirebaseError) : ApiResponse T :=
  mkResponse false (Some (err_message e)) None.

(** What [List] shows of a collection. *)
Definition listing (c : Cloud) (owner : string) : list JsObject :=
  user_file <$> run_query (files_of c owner) "createdAt" Desc.

(** The ordering timestamp of a stored record, in milliseconds. *)
Definition created_ms (o : JsObject) : Z :=
  match js_get o "createdAt" with
  | VTimestamp t => t
  | _ => 0
  end.

(** Every record of the collection carries a [createdAt] timestamp, as
    every record written by [uploadUserFile] does. *)
Definition uploaded_only (coll : gmap string JsObject) : Prop :=
  map_Forall (λ _ o, ∃ t, o !! "createdAt" = Some (VTimestamp t)) coll.

(** The states the file service can bring the hosted services into,
    starting with nothing stored. *)
Inductive file_service_step : relation Cloud :=
  | step_upload env file owner c :
      file_service_step c (uploadUserFile env file owner c).2
  | step_delete env fileId path owner c :
      file_service_step c (deleteUserFile env fileId path owner c).2
  | step_list env owner c :
      file_service_step c (getUserFiles env owner c).2.

Definition reachable (c : Cloud) : Prop := rtc file_service_step empty_cloud c.

(** An environment in which no call of the file service fails. *)
Definition no_faults (env : Env) : Prop :=
  uploadBytes_fault env = None ∧ (∃ url, getDownloadURL_result env = inr url) ∧
  addDoc_fault env = None ∧ deleteObject_fault env = None ∧
  deleteDoc_fault env = None ∧ getDocs_fault env = None.

(** The two failures the upload is said to report as distinct kinds. *)
Inductive ErrorKind : Type := UploadFailed | MetadataWriteFailed.

(** A reading of responses that tells an object-store failure of the upload
    from a metadata-write failure, whatever the inputs. *)
Definition tells_upload_failures_apart
    (kind_of : FirebaseError + ApiResponse JsObject → ErrorKind) : Prop :=
  ∀ env file owner c e,
    (uploadBytes_fault env = Some e →
     kind_of (uploadUserFile env file owner c).1 = UploadFailed) ∧
    (uploadBytes_fault env = None →
     (∃ url, getDownloadURL_result env = inr url) →
     addDoc_fault env = Some e →
     kind_of (uploadUserFile env file owner c).1 = MetadataWriteFailed).

(** ** Sample inputs *)

Definition alice : FirebaseUser := mkUser "u1" "alice@example.com" None None.

Definition report : File :=
  mkFile "report.pdf" 3 "application/pdf" [Byte.x25; Byte.x50; Byte.x44].

Definition report_v2 : File :=
  mkFile "report.pdf" 4 "application/pdf" [Byte.x25; Byte.x50; Byte.x44; Byte.x46].

Definition network_error : FirebaseError := mkError "unavailable" "network request failed".

(** Nothing fails; the clock reads [t]. *)
Definition env_at (t : Z) : Env :=
  mkEnv None (inr "https://files.example/report.pdf") None None None None
        "2024-05-01T10:00:00.000Z" t (inr alice) (inr alice) None None.

Definition env_object_write_fails : Env :=
  mkEnv (Some network_error) (inr "https://files.example/report.pdf") None None None None
        "2024-05-01T10:00:00.000Z" 1000 (inr alice) (inr alice) None None.

Definition env_metadata_write_fails : Env :=
  mkEnv None (inr "https://files.example/report.pdf") (Some network_error) None None None
        "2024-05-01T10:00:00.000Z" 1000 (inr alice) (inr alice) None None.

Definition env_object_delete_fails : Env :=
  mkEnv None (inr "https://files.example/report.pdf") None (Some network_error) None None
        "2024-05-01T10:00:00.000Z" 1000 (inr alice) (inr alice) None None.

(** The services after [alice] uploaded [report] once. *)
Definition cloud_one_file : Cloud := (uploadUserFile (env_at 1000) report "u1" empty_cloud).2.

(** ** The rest of the two pages

    The handlers below show dialogs and use SDK calls the file service and
    the sign-in handlers do not: [getDoc], [updateDoc], [deleteDoc] on the
    profile document, [deleteUser], [signOut].  What a page did of these is
    recorded, in order, in a journal kept beside the page state; what the
    outside decides for them is the record [PageEnv]. *)

Inductive PageEffect : Type :=
  | Confirm (text : string)
  | Alert (text : string)
  | CallGetDoc (user : string)
  | CallUpdateDoc (user : string) (fields : JsObject)
  | CallDeleteProfile (user : string)
  | CallDeleteUser (user : string)
  | CallSignOut.

#[global] Instance PageEffect_eq_dec : EqDecision PageEffect.
Proof. solve_decision. Defined.

Record PageEnv : Type := mkPageEnv {
  getDoc_fault : option FirebaseError;
  updateDoc_fault : option FirebaseError;
  deleteUser_fault : option FirebaseError;
  signOut_fault : option FirebaseError;
  confirm_answer : bool
}.

(** A property the TypeScript types declare a [string], read as one; other
    values are outside the declared type. *)
Definition string_of (v : Value) : string :=
  match v with
  | VString s => s
  | _ => ""
  end.

(** [v || d] for a property declared a [string]. *)
Definition string_or (v : Value) (d : string) : string :=
  match v with
  | VString s => if decide (s = "") then d else s
  | _ => d
  end.

(** The double-quote character. *)
Definition dquote : string := String (Ascii.ascii_of_nat 34) EmptyString.

Definition set_page {P J} (f : P → P) : Async ((P * J) * Cloud) unit :=
  set_state (λ v, (f v.1, v.2)).

Definition journal {P} (e : PageEffect) : Async ((P * list PageEffect) * Cloud) unit :=
  set_state (λ v, (v.1, v.2 ++ [e])).

(** An SDK call of a page: journalled, then failing if the environment says
    so, and otherwise doing what [run] does, which may fail by itself. *)
Definition page_call {P A} (e : PageEffect) (fault : option FirebaseError)
    (run : Cloud → (FirebaseError + A) * Cloud) : Async ((P * list PageEffect) * Cloud) A :=
  journal e;;
  λ s, match fault with
       | Some err => (inl err, s)
       | None => let '(r, c') := run s.2 in (r, (s.1, c'))
       end.

Definition not_found (user : string) : FirebaseError :=
  mkError "not-found" ("No document to update: users/" +:+ user).

Section PageSdk.
Context {P : Type} (env : Env) (penv : PageEnv).

(** [getDoc(doc(db, "users", user))]: the snapshot, [None] when the
    document does not exist. *)
Definition getDoc (user : string) : Async ((P * list PageEffect) * Cloud) (option JsObject) :=
  page_call (CallGetDoc user) (getDoc_fault penv)
    (λ c, (inr (users_db c !! user), c)).

(** [updateDoc(doc(db, "users", user), fields)]: overwrites the given
    fields of an existing document and fails when there is none. *)
Definition updateDoc (user : string) (fields : JsObject)
    : Async ((P * list PageEffect) * Cloud) unit :=
  page_call (CallUpdateDoc user fields) (updateDoc_fault penv)
    (λ c, match users_db c !! user with
          | Some d => (inr tt, set_users_db (insert user (fields ∪ d)) c)
          | None => (inl (not_found user), c)
          end).

(** [deleteDoc(doc(db, "users", user))]. *)
Definition deleteProfile (user : string) : Async ((P * list PageEffect) * Cloud) unit :=
  page_call (CallDeleteProfile user) (deleteDoc_fault env)
    (λ c, (inr tt, set_users_db (delete user) c)).

(** [deleteUser(user)]: removes the identity and ends its session. *)
Definition deleteUser (user : FirebaseUser) : Async ((P * list PageEffect) * Cloud) unit :=
  page_call (CallDeleteUser (uid user)) (deleteUser_fault penv)
    (λ c, (inr tt, set_auth (delete (uid user) (auth_accounts c))
                      (if decide (uid <$> auth_currentUser c = Some (uid user))
                       then None else auth_currentUser c) c)).

End PageSdk.

(** *** [handleDelete] of the documents page *)

Section DocumentsPageDelete.
Context (env : Env) (penv : PageEnv) (currentUser : option FirebaseUser).

(** [rendered] is the page state of the render the handler was created in
    (it reads [files] from there); [file] is the row's record. *)
Definition handleDelete (rendered : DocumentsPage) (file : JsObject)
    : Async ((DocumentsPage * list PageEffect) * Cloud) unit :=
  match currentUser with
  | None => resolve tt
  | Some user =>
      journal (Confirm ("Are you sure you want to delete " +:+ dquote +:+
                        string_of (js_get file "name") +:+ dquote +:+ "?"));;
      if negb (confirm_answer penv) then resolve tt
      else
        let! res := lift_cloud (deleteUserFile env (string_of (js_get file "id"))
                                  (string_of (js_get file "storagePath")) (uid user)) in
        if success res
        then set_page (setFiles (filter (λ f, js_get f "id" ≠ js_get file "id")
                                   (files rendered)))
        else journal (Alert ("Failed to delete file: " +:+
                             default "undefined" (message res)))
  end.
End DocumentsPageDelete.

(** *** The account handlers of the login page *)

Inductive AuthMode : Type := signin | signup.

(** The state of [Login]: the form state of the sign-in handlers, and the
    rest.  [login_loading] is the component's [loading]. *)
Record LoginPage : Type := mkLoginPage {
  form : Login;
  firebaseUser : option FirebaseUser;
  userProfile : option JsObject;
  login_loading : bool;
  authMode : AuthMode;
  showProfileModal : bool;
  editName : string;
  editPhotoFile : option File
}.

Definition setForm (f : Login → Login) (v : LoginPage) : LoginPage :=
  mkLoginPage (f (form v)) (firebaseUser v) (userProfile v) (login_loading v)
              (authMode v) (showProfileModal v) (editName v) (editPhotoFile v).
Definition setFirebaseUser (u : option FirebaseUser) (v : LoginPage) : LoginPage :=
  mkLoginPage (form v) u (userProfile v) (login_loading v)
              (authMode v) (showProfileModal v) (editName v) (editPhotoFile v).
Definition setUserProfile (p : option JsObject) (v : LoginPage) : LoginPage :=
  mkLoginPage (form v) (firebaseUser v) p (login_loading v)
              (authMode v) (showProfileModal v) (editName v) (editPhotoFile v).
Definition setLoginLoading (b : bool) (v : LoginPage) : LoginPage :=
  mkLoginPage (form v) (firebaseUser v) (userProfile v) b
              (authMode v) (showProfileModal v) (editName v) (editPhotoFile v).
Definition setShowProfileModal (b : bool) (v : LoginPage) : LoginPage :=
  mkLoginPage (form v) (firebaseUser v) (userProfile v) (login_loading v)
              (authMode v) b (editName v) (editPhotoFile v).
Definition setEditName (n : string) (v : LoginPage) : LoginPage :=
  mkLoginPage (form v) (firebaseUser v) (userProfile v) (login_loading v)
              (authMode v) (showProfileModal v) n (editPhotoFile v).
Definition setEditPhotoFile (f : option File) (v : LoginPage) : LoginPage :=
  mkLoginPage (form v) (firebaseUser v) (userProfile v) (login_loading v)
              (authMode v) (showProfileModal v) (editName v) f.

(** The object literal of [updateDoc] in [handleUpdateProfile]. *)
Definition profile_fields (name photo : string) : JsObject :=
  <["name" := VString name]> (<["photoFileName" := VString photo]> ∅).

Section AccountHandlers.
Context (env : Env) (penv : PageEnv).

Definition fetchAndSyncUserProfile (user : FirebaseUser)
    : Async ((LoginPage * list PageEffect) * Cloud) unit :=
  try_catch
    (let! docSnap := getDoc penv (uid user) in
     match docSnap with
     | Some d => set_page (setUserProfile (Some d))
     | None =>
         let newProfile :=
           profile_doc (or_else (user_displayName user) "User")
                       (or_else (Some (user_email user)) "")
                       (or_else (user_photoURL user) "default-avatar.png") in
         lift_cloud (setDoc env (uid user) newProfile);;
         set_page (setUserProfile (Some newProfile))
     end)
    (λ err, resolve tt).

(** The callback given to [onAuthStateChanged]. *)
Definition onAuthStateChanged (user : option FirebaseUser)
    : Async ((LoginPage * list PageEffect) * Cloud) unit :=
  set_page (setFirebaseUser user);;
  (match user with
   | Some u => fetchAndSyncUserProfile u
   | None => set_page (setUserProfile None)
   end);;
  set_page (setLoginLoading false).

Definition handleUpdateProfile (rendered : LoginPage)
    : Async ((LoginPage * list PageEffect) * Cloud) unit :=
  match firebaseUser rendered with
  | None => resolve tt
  | Some user =>
      set_page (setForm (setIsProcessing true));;
      try_finally
        (try_catch
           (let newFileName :=
              match editPhotoFile rendered with
              | Some f => file_name f
              | None =>
                  match userProfile rendered with
                  | Some p => string_or (js_get p "photoFileName") "default-avatar.png"
                  | None => "default-avatar.png"
                  end
              end in
            updateDoc penv (uid user) (profile_fields (editName rendered) newFileName);;
            lift_cloud (updateProfile env user (editName rendered) newFileName);;
            set_page (λ v, setUserProfile
                             (match userProfile v with
                              | Some prev =>
                                  Some (<["name" := VString (editName rendered)]>
                                        (<["photoFileName" := VString newFileName]> prev))
                              | None => None
                              end) v);;
            set_page (setShowProfileModal false))
           (λ error, journal (Alert ("Failed to update profile: " +:+ err_message error))))
        (set_page (setForm (setIsProcessing false)))
  end.

Definition handleDeleteAccount (rendered : LoginPage)
    : Async ((LoginPage * list PageEffect) * Cloud) unit :=
  match firebaseUser rendered with
  | None => resolve tt
  | Some user =>
      journal (Confirm "Are you sure you want to delete your account? This cannot be undone.");;
      if negb (confirm_answer penv) then resolve tt
      else
        set_page (setForm (setIsProcessing true));;
        try_finally
          (try_catch
             (deleteProfile env (uid user);;
              deleteUser penv user)
             (λ error, journal (Alert ("Failed to delete account (Requires recent login): "
                                       +:+ err_message error))))
          (set_page (setForm (setIsProcessing false)))
  end.

End AccountHandlers.

Definition openProfileModal (rendered : LoginPage) (v : LoginPage) : LoginPage :=
  match userProfile rendered with
  | Some p =>
      setShowProfileModal true
        (setEditPhotoFile None (setEditName (string_of (js_get p "name")) v))
  | None => v
  end.

(** *** Vocabulary of the further properties *)

(** A record as [uploadUserFile] writes it into the collection of [owner]. *)
Definition uploaded_record (owner : string) (o : JsObject) : Prop :=
  ∃ name size type url date t,
    o !! "name" = Some (VString name) ∧
    o !! "size" = Some (VNumber size) ∧
    o !! "type" = Some (VString type) ∧
    o !! "downloadUrl" = Some (VString url) ∧
    o !! "storagePath" = Some (VString (storage_path owner name)) ∧
    o !! "uploadDate" = Some (VString date) ∧
    o !! "createdAt" = Some (VTimestamp t).

(** Whether the character [/] occurs in a string. *)
Fixpoint has_slash (s : string) : bool :=
  match s with
  | EmptyString => false
  | String a s' => bool_decide (a = Ascii.ascii_of_nat 47) || has_slash s'
  end.

(** The property names of the records [getUserFiles] returns. *)
Definition user_file_keys : gset string :=
  {["id"; "name"; "size"; "type"; "downloadUrl"; "storagePath"; "uploadDate"]}.

Definition page_ok_env : PageEnv := mkPageEnv None None None None true.

(** *** Returned records and stored documents *)

(** [f] is the record [List] returns for the stored document [d]: it has
    the document's id and the document's values of the six properties the
    callback copies ([undefined] for a property the document lacks). *)
Definition shows_document (f : JsObject) (d : string * JsObject) : Prop :=
  f !! "id" = Some (VString d.1) ∧
  f !! "name" = Some (js_get d.2 "name") ∧
  f !! "size" = Some (js_get d.2 "size") ∧
  f !! "type" = Some (js_get d.2 "type") ∧
  f !! "downloadUrl" = Some (js_get d.2 "downloadUrl") ∧
  f !! "storagePath" = Some (js_get d.2 "storagePath") ∧
  f !! "uploadDate" = Some (js_get d.2 "uploadDate").

(** A returned record whose id is not the id of a document of [coll]. *)
Definition not_stored_in (coll : gmap string JsObject) (f : JsObject) : Prop :=
  match f !! "id" with
  | Some (VString i) => coll !! i = None
  | _ => False
  end.

#[global] Instance not_stored_in_dec coll f : Decision (not_stored_in coll f).
Proof. unfold not_stored_in. destruct (f !! "id") as [[]|]; apply _. Defined.

(** A collection with a document that was not written by the upload: it
    has the ordering timestamp and a name, no size, and a property of its
    own. *)
Definition cloud_odd_document : Cloud :=
  set_files_db
    (insert "u1" {["7" := {["createdAt" := VTimestamp 5; "name" := VString "a.txt";
                            "colour" := VString "red"]}]})
    empty_cloud.

(** *** Registration on the page, with the auth-state listener

    [createUserWithEmailAndPassword] signs the new user in, and the page's
    own auth-state listener is notified of that.
    [handleFirebaseRegister_page] is [handleFirebaseRegister] over the
    whole state of the page, with [notify user] run at the point where the
    [await] of [createUserWithEmailAndPassword] has returned [user].  With
    [notify] doing nothing it is the handler alone; in
    [register_with_listener] it is the listener's callback, run to its
    end before the handler goes on (the listener never rejects). *)

Section RegisterOnPage.
Context (env : Env).

Definition handleFirebaseRegister_page
    (notify : FirebaseUser → Async ((LoginPage * list PageEffect) * Cloud) unit)
    (rendered : Login) : Async ((LoginPage * list PageEffect) * Cloud) unit :=
  set_page (setForm (setErrorMsg ""));;
  if decide (password rendered ≠ repeatPassword rendered)
  then set_page (setForm (setErrorMsg "Passwords do not match"))
  else
    set_page (setForm (setIsProcessing true));;
    try_finally
      (try_catch
         (let! user := lift_cloud (createUserWithEmailAndPassword env (email rendered)
                                     (password rendered)) in
          notify user;;
          let fileName := match photoFile rendered with
                          | Some f => file_name f
                          | None => "default-avatar.png"
                          end in
          lift_cloud (updateProfile env user
                        (or_else (Some (displayName rendered)) "New User") fileName);;
          lift_cloud (setDoc env (uid user)
                        (profile_doc (or_else (Some (displayName rendered)) "New User")
                                     (email rendered) fileName)))
         (λ error,
            if bool_decide (err_code error = "auth/email-already-in-use")
            then set_page (setForm (setErrorMsg "user already exist, sign in?"))
            else set_page (setForm (setErrorMsg (err_message error)))))
      (set_page (setForm (setIsProcessing false))).

(** [env_l] and [penv_l] decide the calls of the listener. *)
Definition register_with_listener (env_l : Env) (penv_l : PageEnv) (rendered : Login)
    : Async ((LoginPage * list PageEffect) * Cloud) unit :=
  handleFirebaseRegister_page
    (λ user, onAuthStateChanged env_l penv_l (Some user)) rendered.
End RegisterOnPage.

(** * Theory *)

(** Closed, decidable statements about sample inputs are settled by
    evaluation. *)
Ltac by_compute :=
  match goal with
  | |- ?P => apply (bool_decide_unpack P); vm_compute; exact I
  end.


(** ** The order of query results *)

Lemma value_le_refl v : value_le v v.
Proof. destruct v; simpl; done. Qed.

Lemma value_le_trans v1 v2 v3 : value_le v1 v2 → value_le v2 v3 → value_le v1 v3.
Proof.
  destruct v1, v2, v3; simpl; try lia; try done.
  intros; by etrans.
Qed.

Lemma value_le_antisym v1 v2 : value_le v1 v2 → value_le v2 v1 → v1 = v2.
Proof.
  destruct v1, v2; simpl; try lia; try done.
  - intros; f_equal; lia.
  - intros; f_equal; lia.
  - intros; f_equal. by apply (anti_symm String.le).
Qed.

Lemma value_le_total v1 v2 : value_le v1 v2 ∨ value_le v2 v1.
Proof.
  destruct v1, v2; simpl; try lia.
  apply (total String.le).
Qed.

#[global] Instance doc_le_trans field : Transitive (doc_le field).
Proof.
  intros [i1 o1] [i2 o2] [i3 o3] [H12 K12] [H23 K23]; unfold doc_le in *; simpl in *.
  split; [by eapply value_le_trans|].
  intros H31.
  pose proof (value_le_trans _ _ _ H23 H31) as H21.
  pose proof (value_le_trans _ _ _ H31 H12) as H32.
  etrans; [apply K12, H21|apply K23, H32].
Qed.

#[global] Instance doc_le_total field : Total (doc_le field).
Proof.
  intros [i1 o1] [i2 o2]; unfold doc_le; simpl.
  destruct (decide (value_le (js_get o1 field) (js_get o2 field))) as [H12|H12];
    destruct (decide (value_le (js_get o2 field) (js_get o1 field))) as [H21|H21].
  - destruct (total String.le i1 i2); [left|right]; done.
  - left; done.
  - right; done.
  - destruct (value_le_total (js_get o1 field) (js_get o2 field)); done.
Qed.

Lemma doc_le_antisym_id field x y : doc_le field x y → doc_le field y x → x.1 = y.1.
Proof.
  intros [H1 K1] [H2 K2]. apply (anti_symm String.le); auto.
Qed.

#[global] Instance query_order_trans field dir : Transitive (query_order field dir).
Proof. destruct dir; simpl; apply _. Qed.

#[global] Instance query_order_total field dir : Total (query_order field dir).
Proof.
  destruct dir; simpl; [apply _|].
  intros x y. destruct (total (doc_le field) x y); [right|left]; done.
Qed.

Lemma query_order_antisym_id field dir x y :
  query_order field dir x y → query_order field dir y x → x.1 = y.1.
Proof.
  destruct dir; simpl; unfold flip; intros; [|symmetry];
    by eapply doc_le_antisym_id.
Qed.

(** ** Queries *)

Section Query.
Context (coll : gmap string JsObject) (field : string) (dir : Direction).

Lemma run_query_perm :
  run_query coll field dir ≡ₚ filter (has_field field) (map_to_list coll).
Proof. apply merge_sort_Permutation. Qed.

Lemma run_query_sorted : StronglySorted (query_order field dir) (run_query coll field dir).
Proof. apply StronglySorted_merge_sort; apply _. Qed.

Lemma elem_of_run_query i o :
  (i, o) ∈ run_query coll field dir ↔ coll !! i = Some o ∧ is_Some (o !! field).
Proof.
  rewrite run_query_perm, list_elem_of_filter, elem_of_map_to_list.
  unfold has_field; simpl. tauto.
Qed.

Lemma run_query_NoDup : NoDup (run_query coll field dir).
Proof. rewrite run_query_perm. apply NoDup_filter, NoDup_map_to_list. Qed.

Lemma run_query_unique_id x y :
  x ∈ run_query coll field dir → y ∈ run_query coll field dir → x.1 = y.1 → x = y.
Proof.
  destruct x as [i o], y as [j o']; simpl.
  rewrite !elem_of_run_query. intros [Hx _] [Hy _] ->. congruence.
Qed.
End Query.

Lemma StronglySorted_filter {A} (R : relation A) (P : A → Prop)
    `{!∀ x, Decision (P x)} (l : list A) :
  StronglySorted R l → StronglySorted R (filter P l).
Proof.
  induction 1 as [|x l Hl IH Hx]; simpl; [constructor|].
  rewrite filter_cons. case_decide; [|done].
  constructor; [done|].
  rewrite Forall_forall in Hx |- *.
  intros y [_ Hy]%list_elem_of_filter. by apply Hx.
Qed.

(** Two query results over the same documents are the same list. *)
Lemma query_result_unique field dir (l1 l2 : list (string * JsObject)) :
  (∀ x y, x ∈ l1 → y ∈ l1 → x.1 = y.1 → x = y) →
  StronglySorted (query_order field dir) l1 →
  StronglySorted (query_order field dir) l2 →
  l1 ≡ₚ l2 → l1 = l2.
Proof.
  intros Hid Hs1 Hs2 Hp.
  apply (StronglySorted_unique_strong (query_order field dir)); [|done..].
  intros x y Hx Hy Hxy Hyx. apply Hid; [done| |].
  - by rewrite Hp.
  - by eapply query_order_antisym_id.
Qed.

(** Deleting a document removes it from the result and leaves the rest
    in place. *)
Lemma run_query_delete coll field dir i :
  run_query (delete i coll) field dir =
  filter (λ x, x.1 ≠ i) (run_query coll field dir).
Proof.
  apply (query_result_unique field dir).
  - apply run_query_unique_id.
  - apply run_query_sorted.
  - apply StronglySorted_filter, run_query_sorted.
  - apply NoDup_Permutation.
    + apply run_query_NoDup.
    + apply NoDup_filter, run_query_NoDup.
    + intros [j o]. rewrite list_elem_of_filter, !elem_of_run_query,
        lookup_delete_Some. simpl.
      split; [intros [[? ?] ?]|intros [? [? ?]]]; repeat split; auto.
Qed.

(** Adding a document under a new id adds it to the result and leaves the
    rest in place. *)
Lemma run_query_insert coll field dir i o :
  coll !! i = None →
  filter (λ x, x.1 ≠ i) (run_query (<[i := o]> coll) field dir) =
  run_query coll field dir.
Proof.
  intros Hi. rewrite <-run_query_delete. by rewrite delete_insert_id.
Qed.

Lemma run_query_insert_perm coll field dir i o :
  coll !! i = None → is_Some (o !! field) →
  run_query (<[i := o]> coll) field dir ≡ₚ (i, o) :: run_query coll field dir.
Proof.
  intros Hi Ho. apply NoDup_Permutation.
  - apply run_query_NoDup.
  - constructor; [|apply run_query_NoDup].
    rewrite elem_of_run_query. intros [? _]. congruence.
  - intros [j o']. rewrite elem_of_cons, !elem_of_run_query, lookup_insert_Some.
    split.
    + intros [[[-> ->]|[? ?]] ?]; [by left|by right].
    + intros [[= -> ->]|[? ?]]; [split; [by left|done]|].
      split; [|done]. right. split; [|done]. intros ->. congruence.
Qed.

(** ** The [forEach] loop of [getUserFiles] *)

Lemma forEach_push (docs : list (string * JsObject)) (acc : list JsObject) :
  foldl (λ (files : list JsObject) d, files ++ [user_file d]) acc docs =
  acc ++ (user_file <$> docs).
Proof.
  revert acc. induction docs as [|d docs IH]; intros acc; simpl.
  - by rewrite app_nil_r.
  - rewrite IH. by rewrite <-app_assoc.
Qed.

Lemma user_file_id d : user_file d !! "id" = Some (VString d.1).
Proof. unfold user_file. by rewrite lookup_insert_eq. Qed.

Lemma user_file_no_createdAt d : user_file d !! "createdAt" = None.
Proof. unfold user_file. by repeat (rewrite lookup_insert_ne by done). Qed.

Lemma user_file_inj_id d1 d2 : user_file d1 = user_file d2 → d1.1 = d2.1.
Proof.
  intros H. pose proof (user_file_id d1) as H1. rewrite H, user_file_id in H1.
  congruence.
Qed.

(** ** Running the file service *)

Section RunFileService.
Context (env : Env).

Lemma getUserFiles_run owner c :
  getUserFiles env owner c =
  match getDocs_fault env with
  | Some e => (inr (failure e), log_call (CallGetDocs owner "createdAt" Desc) c)
  | None => (inr (mkResponse true None (Some (listing c owner))),
             log_call (CallGetDocs owner "createdAt" Desc) c)
  end.
Proof.
  unfold getUserFiles, try_catch, await, getDocs, sdk_call, resolve, failure, listing.
  destruct (getDocs_fault env); [done|].
  simpl. by rewrite forEach_push.
Qed.

Lemma deleteUserFile_run fileId path owner c :
  deleteUserFile env fileId path owner c =
  let c1 := log_call (CallDeleteObject path) c in
  match deleteObject_fault env with
  | Some e => (inr (failure e), c1)
  | None =>
      let c2 := log_call (CallDeleteDoc owner fileId) (set_storage (delete path) c1) in
      match deleteDoc_fault env with
      | Some e => (inr (failure e), c2)
      | None => (inr (mkResponse true (Some "File deleted successfully") None),
                 set_files_db (insert owner (delete fileId (files_of c2 owner))) c2)
      end
  end.
Proof.
  unfold deleteUserFile, try_catch, await, deleteObject, deleteDoc, sdk_call,
    resolve, failure.
  destruct (deleteObject_fault env); [done|].
  destruct (deleteDoc_fault env); done.
Qed.

Lemma uploadUserFile_run file owner c :
  uploadUserFile env file owner c =
  let p := storage_path owner (file_name file) in
  let c1 := log_call (CallUploadBytes p) c in
  match uploadBytes_fault env with
  | Some e => (inr (failure e), c1)
  | None =>
      let c2 := log_call (CallGetDownloadURL p)
                  (set_storage (insert p (file_content file)) c1) in
      match getDownloadURL_result env with
      | inl e => (inr (failure e), c2)
      | inr url =>
          let d := fileData file url p (date_now_iso env) (timestamp_now env) in
          let c3 := log_call (CallAddDoc owner d) c2 in
          match addDoc_fault env with
          | Some e => (inr (failure e), c3)
          | None =>
              let id := fresh (dom (files_of c owner)) in
              (inr (mkResponse true None (Some (<["id" := VString id]> d))),
               set_files_db (insert owner (<[id := d]> (files_of c owner))) c3)
          end
      end
  end.
Proof.
  unfold uploadUserFile, try_catch, await, uploadBytes, getDownloadURL, addDoc,
    sdk_call, resolve, failure.
  destruct (uploadBytes_fault env); [done|].
  simpl. destruct (getDownloadURL_result env); [done|].
  destruct (addDoc_fault env); done.
Qed.
End RunFileService.

(** * The statements of the specification *)

(** ** Delete *)

(** C1, as stated, fails: when the object deletion fails, the metadata
    deletion is not attempted and the record stays in the database. *)
Lemma C1_counterexample :
  let r := deleteUserFile env_object_delete_fails "0" "user_uploads/u1/report.pdf" "u1"
             cloud_one_file in
  (is_Some (files_of cloud_one_file "u1" !! "0") ∧
   CallDeleteObject "user_uploads/u1/report.pdf" ∈ sdk_log r.2 ∧
   (CallDeleteDoc "u1" "0" ∉ sdk_log r.2) ∧
   files_of r.2 "u1" = files_of cloud_one_file "u1").
Proof. intros r. repeat split; by_compute. Qed.

(** C1, amended: the object deletion is always attempted first; the
    metadata deletion is attempted exactly when the object deletion
    succeeded; when the object deletion succeeds and the metadata deletion
    fails the object stays deleted and the record stays stored (no
    rollback); every failure is answered with [success = false]. *)
Theorem C1_delete_steps env fileId path owner c :
  let r := deleteUserFile env fileId path owner c in
  (match deleteObject_fault env, deleteDoc_fault env with
  | Some e, _ =>
      r.1 = inr (failure e) ∧
      sdk_log r.2 = sdk_log c ++ [CallDeleteObject path] ∧
      storage r.2 = storage c ∧ files_db r.2 = files_db c
  | None, Some e =>
      r.1 = inr (failure e) ∧
      sdk_log r.2 = sdk_log c ++ [CallDeleteObject path; CallDeleteDoc owner fileId] ∧
      storage r.2 = delete path (storage c) ∧ files_db r.2 = files_db c
  | None, None =>
      r.1 = inr (mkResponse true (Some "File deleted successfully") None) ∧
      sdk_log r.2 = sdk_log c ++ [CallDeleteObject path; CallDeleteDoc owner fileId] ∧
      storage r.2 = delete path (storage c) ∧
      files_of r.2 owner = delete fileId (files_of c owner)
  end).
Proof.
  intros r. subst r. rewrite deleteUserFile_run.
  destruct (deleteObject_fault env) as [e|]; [done|].
  destruct (deleteDoc_fault env) as [e|]; simpl.
  - by rewrite <-app_assoc.
  - rewrite <-app_assoc. repeat split; [].
    unfold files_of; simpl. by rewrite lookup_total_insert_eq.
Qed.

(** ** Upload *)

(** C2, as stated, fails: the response of a failed upload is
    [{ success: false, message }] with the message of the call that failed,
    so a failed object write and a failed metadata write with the same
    message are answered alike; nothing in the response is an error kind. *)
Lemma C2_counterexample : ¬ ∃ kind_of, tells_upload_failures_apart kind_of.
Proof.
  intros [kind_of H].
  destruct (H env_object_write_fails report "u1" empty_cloud network_error) as [H1 _].
  destruct (H env_metadata_write_fails report "u1" empty_cloud network_error) as [_ H2].
  specialize (H1 eq_refl).
  specialize (H2 eq_refl (ex_intro _ _ eq_refl) eq_refl).
  assert ((uploadUserFile env_object_write_fails report "u1" empty_cloud).1 =
          (uploadUserFile env_metadata_write_fails report "u1" empty_cloud).1) as E
    by (by vm_compute).
  rewrite E in H1. congruence.
Qed.

(** C2, amended: if the object write or the URL retrieval fails, the upload
    answers [success = false] with that call's message and the metadata
    write is not attempted; if the bytes were stored and the metadata write
    fails, the upload answers in the same way, with the message of the
    metadata write, no record is stored, and the object stays in the store
    (no clean-up call is issued). *)
Theorem C2_upload_failures env file owner c e :
  let p := storage_path owner (file_name file) in
  let r := uploadUserFile env file owner c in
  (uploadBytes_fault env = Some e →
     r.1 = inr (failure e) ∧
     sdk_log r.2 = sdk_log c ++ [CallUploadBytes p] ∧
     storage r.2 = storage c ∧ files_db r.2 = files_db c) ∧
  (uploadBytes_fault env = None → getDownloadURL_result env = inl e →
     r.1 = inr (failure e) ∧
     sdk_log r.2 = sdk_log c ++ [CallUploadBytes p; CallGetDownloadURL p] ∧
     files_db r.2 = files_db c) ∧
  (∀ url, uploadBytes_fault env = None → getDownloadURL_result env = inr url →
     addDoc_fault env = Some e →
     r.1 = inr (failure e) ∧
     sdk_log r.2 = sdk_log c ++
       [CallUploadBytes p; CallGetDownloadURL p;
        CallAddDoc owner (fileData file url p (date_now_iso env) (timestamp_now env))] ∧
     files_db r.2 = files_db c ∧
     storage r.2 = <[p := file_content file]> (storage c)).
Proof.
  intros p r. subst p r. rewrite uploadUserFile_run.
  split; [|split].
  - intros ->. done.
  - intros -> ->. simpl. by rewrite <-app_assoc.
  - intros url -> -> ->. simpl. by rewrite <-!app_assoc.
Qed.

Lemma C2_upload_failures_witness :
  let p := "user_uploads/u1/report.pdf" in
  let r1 := uploadUserFile env_object_write_fails report "u1" cloud_one_file in
  let r2 := uploadUserFile env_metadata_write_fails report_v2 "u1" cloud_one_file in
  (r1.1 = inr (failure network_error) ∧
   sdk_log r1.2 = sdk_log cloud_one_file ++ [CallUploadBytes p] ∧
   storage r1.2 = storage cloud_one_file ∧ files_db r1.2 = files_db cloud_one_file) ∧
  (r2.1 = inr (failure network_error) ∧
   sdk_log r2.2 = sdk_log cloud_one_file ++
     [CallUploadBytes p; CallGetDownloadURL p;
      CallAddDoc "u1" (fileData report_v2 "https://files.example/report.pdf" p
                         "2024-05-01T10:00:00.000Z" 1000)] ∧
   files_db r2.2 = files_db cloud_one_file ∧
   storage r2.2 = <[p := file_content report_v2]> (storage cloud_one_file)).
Proof.
  split.
  - apply (C2_upload_failures env_object_write_fails report "u1" cloud_one_file
             network_error). reflexivity.
  - apply (C2_upload_failures env_metadata_write_fails report_v2 "u1" cloud_one_file
             network_error); reflexivity.
Defined.

Lemma fresh_id_unused (coll : gmap string JsObject) : coll !! fresh (dom coll) = None.
Proof. apply not_elem_of_dom, is_fresh. Qed.

(** A successful upload, step by step. *)
Lemma uploadUserFile_ok env file owner c url :
  uploadBytes_fault env = None → getDownloadURL_result env = inr url →
  addDoc_fault env = None →
  let p := storage_path owner (file_name file) in
  let d := fileData file url p (date_now_iso env) (timestamp_now env) in
  let id := fresh (dom (files_of c owner)) in
  uploadUserFile env file owner c =
  (inr (mkResponse true None (Some (<["id" := VString id]> d))),
   mkCloud (<[p := file_content file]> (storage c))
           (<[owner := <[id := d]> (files_of c owner)]> (files_db c))
           (users_db c) (auth_accounts c) (auth_currentUser c)
           (sdk_log c ++ [CallUploadBytes p; CallGetDownloadURL p; CallAddDoc owner d])).
Proof.
  intros H1 H2 H3 p d id. rewrite uploadUserFile_run, H1, H2, H3.
  unfold set_files_db, log_call, set_storage; simpl.
  by rewrite <-!app_assoc.
Qed.

(** An upload that answers [success = true] met no failure. *)
Lemma uploadUserFile_success_inv env file owner c resp :
  (uploadUserFile env file owner c).1 = inr resp → success resp = true →
  uploadBytes_fault env = None ∧ (∃ url, getDownloadURL_result env = inr url) ∧
  addDoc_fault env = None.
Proof.
  rewrite uploadUserFile_run.
  destruct (uploadBytes_fault env); [intros [= <-]; done|].
  destruct (getDownloadURL_result env) as [|url]; [intros [= <-]; done|].
  destruct (addDoc_fault env); [intros [= <-]; done|].
  eauto.
Qed.

Lemma fileData_uploadDate file url p date t :
  fileData file url p date t !! "uploadDate" = Some (VString date).
Proof. by vm_compute. Qed.

Lemma fileData_createdAt file url p date t :
  fileData file url p date t !! "createdAt" = Some (VTimestamp t).
Proof. by vm_compute. Qed.

Lemma fileData_storagePath file url p date t :
  fileData file url p date t !! "storagePath" = Some (VString p).
Proof. by vm_compute. Qed.

Lemma user_file_of_fileData id file url p date t :
  let f := user_file (id, fileData file url p date t) in
  f !! "id" = Some (VString id) ∧
  f !! "name" = Some (VString (file_name file)) ∧
  f !! "size" = Some (VNumber (file_size file)) ∧
  f !! "type" = Some (VString (file_type file)) ∧
  f !! "storagePath" = Some (VString p) ∧
  f !! "uploadDate" = Some (VString date).
Proof. by vm_compute. Qed.

(** C3, as stated, fails: the record a successful upload returns to its
    caller carries the ordering timestamp [createdAt]. *)
Lemma C3_counterexample :
  ∃ resp record,
    (uploadUserFile (env_at 1000) report "u1" empty_cloud).1 = inr resp ∧
    success resp = true ∧ data resp = Some record ∧
    record !! "createdAt" = Some (VTimestamp 1000).
Proof. eexists _, _. repeat split; by vm_compute. Qed.

(** C3, amended: for every successful upload the stored record holds the
    upload timestamp [uploadDate] and, separately, the ordering timestamp
    [createdAt], both read by the uploading code before the metadata write
    and handed to the database as part of the record; the records [List]
    returns contain the upload timestamp and never the ordering timestamp;
    the record [Upload] itself returns carries both. *)
Theorem C3_timestamps env file owner c resp :
  (uploadUserFile env file owner c).1 = inr resp → success resp = true →
  let c' := (uploadUserFile env file owner c).2 in
  ∃ id stored returned,
    CallAddDoc owner stored ∈ sdk_log c' ∧
    files_of c' owner !! id = Some stored ∧
    stored !! "uploadDate" = Some (VString (date_now_iso env)) ∧
    stored !! "createdAt" = Some (VTimestamp (timestamp_now env)) ∧
    data resp = Some returned ∧
    returned !! "id" = Some (VString id) ∧
    returned !! "uploadDate" = Some (VString (date_now_iso env)) ∧
    returned !! "createdAt" = Some (VTimestamp (timestamp_now env)) ∧
    (∀ env', getDocs_fault env' = None →
       ∃ l f, (getUserFiles env' owner c').1 = inr (mkResponse true None (Some l)) ∧
              f ∈ l ∧ f !! "id" = Some (VString id) ∧
              f !! "uploadDate" = Some (VString (date_now_iso env))) ∧
    (∀ env' owner' c'' resp' l f,
       (getUserFiles env' owner' c'').1 = inr resp' → data resp' = Some l →
       f ∈ l → f !! "createdAt" = None).
Proof.
  intros Hr Hs c'.
  destruct (uploadUserFile_success_inv _ _ _ _ _ Hr Hs) as (H1 & [url H2] & H3).
  subst c'. revert Hr.
  rewrite (uploadUserFile_ok env file owner c url H1 H2 H3); simpl.
  intros [= <-].
  set (p := storage_path owner (file_name file)).
  set (d := fileData file url p (date_now_iso env) (timestamp_now env)).
  set (id := fresh (dom (files_of c owner))).
  exists id, d, (<["id" := VString id]> d).
  assert (files_of (mkCloud (<[p := file_content file]> (storage c))
                      (<[owner := <[id := d]> (files_of c owner)]> (files_db c))
                      (users_db c) (auth_accounts c) (auth_currentUser c)
                      (sdk_log c ++ [CallUploadBytes p; CallGetDownloadURL p;
                                     CallAddDoc owner d])) owner !! id = Some d) as Hd.
  { unfold files_of; simpl. by rewrite lookup_total_insert_eq, lookup_insert_eq. }
  split; [|split; [exact Hd|]].
  { simpl. rewrite elem_of_app, !elem_of_cons. auto. }
  split; [apply fileData_uploadDate|].
  split; [apply fileData_createdAt|].
  split; [done|].
  split; [by rewrite lookup_insert_eq|].
  split; [rewrite lookup_insert_ne by done; apply fileData_uploadDate|].
  split; [rewrite lookup_insert_ne by done; apply fileData_createdAt|].
  split.
  - intros env' Hg. rewrite getUserFiles_run, Hg; simpl.
    eexists _, (user_file (id, d)). split; [done|].
    split.
    + unfold listing. apply list_elem_of_fmap. exists (id, d). split; [done|].
      apply elem_of_run_query. split; [exact Hd|].
      eexists. apply fileData_createdAt.
    + split; [apply user_file_id|]. apply user_file_of_fileData.
  - intros env' owner' c'' resp' l f. rewrite getUserFiles_run.
    destruct (getDocs_fault env'); simpl; intros [= <-]; [done|].
    simpl. intros [= <-]. unfold listing.
    intros (x & -> & _)%list_elem_of_fmap. apply user_file_no_createdAt.
Qed.

Lemma C3_timestamps_witness :
  ∃ id stored,
    files_of cloud_one_file "u1" !! id = Some stored ∧
    stored !! "uploadDate" = Some (VString "2024-05-01T10:00:00.000Z") ∧
    stored !! "createdAt" = Some (VTimestamp 1000).
Proof.
  destruct (C3_timestamps (env_at 1000) report "u1" empty_cloud
              (mkResponse true None
                 (Some (<["id" := VString "0"]>
                          (fileData report "https://files.example/report.pdf"
                             "user_uploads/u1/report.pdf"
                             "2024-05-01T10:00:00.000Z" 1000))))
              eq_refl eq_refl) as (id & stored & returned & _ & H1 & H2 & H3 & _).
  exists id, stored. auto.
Defined.

(** The path template of [uploadUserFile]. *)
Lemma storage_path_eq owner name :
  storage_path owner name = "user_uploads/" +:+ owner +:+ "/" +:+ name.
Proof. reflexivity. Qed.

(** C4: the storage path is [user_uploads/{userId}/{originalFileName}]; two
    successful uploads of files with the same name by the same user write
    to that one path, the second replacing the bytes of the first, and
    store two records under different ids, both with that storage path. *)
Theorem C4_same_name_uploads env1 env2 file1 file2 owner c :
  file_name file1 = file_name file2 → no_faults env1 → no_faults env2 →
  let p := "user_uploads/" +:+ owner +:+ "/" +:+ file_name file1 in
  let r1 := uploadUserFile env1 file1 owner c in
  let r2 := uploadUserFile env2 file2 owner r1.2 in
  ∃ id1 id2 d1 d2,
    r1.1 = inr (mkResponse true None (Some (<["id" := VString id1]> d1))) ∧
    r2.1 = inr (mkResponse true None (Some (<["id" := VString id2]> d2))) ∧
    sdk_log r2.2 = sdk_log c ++
      [CallUploadBytes p; CallGetDownloadURL p; CallAddDoc owner d1;
       CallUploadBytes p; CallGetDownloadURL p; CallAddDoc owner d2] ∧
    storage r1.2 = <[p := file_content file1]> (storage c) ∧
    storage r2.2 = <[p := file_content file2]> (storage c) ∧
    id1 ≠ id2 ∧
    files_of r2.2 owner = <[id2 := d2]> (<[id1 := d1]> (files_of c owner)) ∧
    files_of c owner !! id1 = None ∧
    d1 !! "storagePath" = Some (VString p) ∧
    d2 !! "storagePath" = Some (VString p).
Proof.
  intros Hname (U1 & [url1 G1] & A1 & _) (U2 & [url2 G2] & A2 & _) p r1 r2.
  subst r2 r1.
  rewrite (uploadUserFile_ok env1 file1 owner c url1 U1 G1 A1); simpl.
  rewrite (uploadUserFile_ok env2 file2 owner _ url2 U2 G2 A2); simpl.
  rewrite <-Hname. subst p. rewrite <-storage_path_eq.
  set (p := storage_path owner (file_name file1)).
  unfold files_of; simpl. rewrite !lookup_total_insert_eq.
  set (coll := files_db c !!! owner).
  set (d1 := fileData file1 url1 _ _ _).
  set (d2 := fileData file2 url2 _ _ _).
  exists (fresh (dom coll)), (fresh (dom (<[fresh (dom coll) := d1]> coll))), d1, d2.
  split; [done|]. split; [done|].
  split; [by rewrite <-app_assoc|].
  split; [done|]. split; [by rewrite insert_insert_eq|].
  split.
  { intros E. pose proof (fresh_id_unused (<[fresh (dom coll) := d1]> coll)) as Hf.
    rewrite <-E, lookup_insert_eq in Hf. done. }
  split; [done|].
  split; [apply fresh_id_unused|].
  split; apply fileData_storagePath.
Qed.

Lemma C4_same_name_uploads_witness :
  ∃ id1 id2 d1 d2,
    id1 ≠ id2 ∧
    files_of (uploadUserFile (env_at 2000) report_v2 "u1" cloud_one_file).2 "u1" =
      <[id2 := d2]> (<[id1 := d1]> ∅) ∧
    storage (uploadUserFile (env_at 2000) report_v2 "u1" cloud_one_file).2 =
      <["user_uploads/u1/report.pdf" := file_content report_v2]> ∅ ∧
    d1 !! "storagePath" = Some (VString "user_uploads/u1/report.pdf") ∧
    d2 !! "storagePath" = Some (VString "user_uploads/u1/report.pdf").
Proof.
  destruct (C4_same_name_uploads (env_at 1000) (env_at 2000) report report_v2 "u1"
              empty_cloud eq_refl)
    as (id1 & id2 & d1 & d2 & _ & _ & _ & _ & Hs & Hne & Hf & _ & Hp1 & Hp2).
  - repeat split; eauto.
  - repeat split; eauto.
  - exists id1, id2, d1, d2. auto.
Defined.

(** ** Round trip *)

Lemma filter_listing_id (l : list (string * JsObject)) id :
  filter (λ f : JsObject, f !! "id" ≠ Some (VString id)) (user_file <$> l) =
  user_file <$> filter (λ x, x.1 ≠ id) l.
Proof.
  induction l as [|x l IH]; [done|].
  rewrite fmap_cons, !filter_cons, IH, user_file_id.
  destruct (decide (x.1 = id)) as [Hx|Hx]; repeat case_decide;
    try done; try congruence; simplify_eq; tauto.
Qed.

Lemma files_of_log_call e c owner : files_of (log_call e c) owner = files_of c owner.
Proof. done. Qed.

Lemma listing_log_call e c owner : listing (log_call e c) owner = listing c owner.
Proof. done. Qed.

(** C5: after a successful upload the listing is the old listing plus
    exactly one record, which has the uploaded file's name, size and MIME
    type; after deleting that record (by its id and storage path) the
    listing is the old listing again: the record is gone, every other
    record is as it was. *)
Theorem C5_round_trip env1 env2 env3 env4 file owner c :
  no_faults env1 → no_faults env2 → no_faults env3 → no_faults env4 →
  let before := listing c owner in
  let r1 := uploadUserFile env1 file owner c in
  let r2 := getUserFiles env2 owner r1.2 in
  ∃ id returned record after_upload,
    r1.1 = inr (mkResponse true None (Some returned)) ∧
    returned !! "id" = Some (VString id) ∧
    r2.1 = inr (mkResponse true None (Some after_upload)) ∧
    after_upload ≡ₚ record :: before ∧
    (∀ f, f ∈ before → f !! "id" ≠ Some (VString id)) ∧
    filter (λ f : JsObject, f !! "id" ≠ Some (VString id)) after_upload = before ∧
    record !! "id" = Some (VString id) ∧
    record !! "name" = Some (VString (file_name file)) ∧
    record !! "size" = Some (VNumber (file_size file)) ∧
    record !! "type" = Some (VString (file_type file)) ∧
    record !! "storagePath" = Some (VString (storage_path owner (file_name file))) ∧
    let r3 := deleteUserFile env3 id (storage_path owner (file_name file)) owner r2.2 in
    let r4 := getUserFiles env4 owner r3.2 in
    r3.1 = inr (mkResponse true (Some "File deleted successfully") None) ∧
    r4.1 = inr (mkResponse true None (Some before)) ∧
    record ∉ before.
Proof.
  intros (U1 & [url G1] & A1 & _) (_ & _ & _ & _ & _ & L2) (_ & _ & _ & O3 & D3 & _)
    (_ & _ & _ & _ & _ & L4) before r1 r2.
  subst r2 r1.
  rewrite (uploadUserFile_ok env1 file owner c url U1 G1 A1); simpl.
  set (p := storage_path owner (file_name file)).
  set (d := fileData file url p (date_now_iso env1) (timestamp_now env1)).
  set (id := fresh (dom (files_of c owner))).
  set (c1 := mkCloud _ _ _ _ _ _).
  assert (files_of c owner !! id = None) as Hid by apply fresh_id_unused.
  assert (files_of c1 owner = <[id := d]> (files_of c owner)) as Hc1.
  { unfold files_of at 1; simpl. by rewrite lookup_total_insert_eq. }
  assert (∀ f, f ∈ before → f !! "id" ≠ Some (VString id)) as Hold.
  { intros f ([j o] & -> & [Hj _]%elem_of_run_query)%list_elem_of_fmap.
    rewrite user_file_id; simpl. intros [= ->]. congruence. }
  exists id, (<["id" := VString id]> d), (user_file (id, d)), (listing c1 owner).
  split; [done|].
  split; [by rewrite lookup_insert_eq|].
  split; [by rewrite getUserFiles_run, L2|].
  split.
  { unfold listing, before. rewrite Hc1.
    rewrite run_query_insert_perm; [done..|].
    eexists. apply fileData_createdAt. }
  split; [exact Hold|].
  split.
  { unfold listing, before. rewrite filter_listing_id, Hc1.
    by rewrite run_query_insert. }
  destruct (user_file_of_fileData id file url p (date_now_iso env1) (timestamp_now env1))
    as (F1 & F2 & F3 & F4 & F5 & _).
  do 5 (split; [done|]).
  rewrite getUserFiles_run, L2; simpl.
  rewrite deleteUserFile_run, O3, D3; simpl.
  split; [done|].
  split.
  - rewrite getUserFiles_run, L4; simpl. do 3 f_equal.
    unfold listing, before. f_equal. f_equal.
    unfold files_of at 1; simpl. rewrite lookup_total_insert_eq.
    change (files_of (log_call _ (set_storage _ (log_call _ (log_call _ c1)))) owner)
      with (files_of c1 owner).
    rewrite Hc1, delete_insert_id by done. done.
  - intros Hin. by apply (Hold _ Hin).
Qed.

Lemma C5_round_trip_witness :
  let r1 := uploadUserFile (env_at 2000) report_v2 "u1" cloud_one_file in
  let r2 := getUserFiles (env_at 2001) "u1" r1.2 in
  ∃ id record after_upload,
    r2.1 = inr (mkResponse true None (Some after_upload)) ∧
    after_upload ≡ₚ record :: listing cloud_one_file "u1" ∧
    record !! "name" = Some (VString "report.pdf") ∧
    record !! "size" = Some (VNumber 4) ∧
    record !! "type" = Some (VString "application/pdf") ∧
    let r3 := deleteUserFile (env_at 2002) id "user_uploads/u1/report.pdf" "u1" r2.2 in
    (getUserFiles (env_at 2003) "u1" r3.2).1 =
      inr (mkResponse true None (Some (listing cloud_one_file "u1"))).
Proof.
  assert (∀ t, no_faults (env_at t)) as Hok
    by (intros t; repeat split; eauto).
  destruct (C5_round_trip (env_at 2000) (env_at 2001) (env_at 2002) (env_at 2003)
              report_v2 "u1" cloud_one_file (Hok _) (Hok _) (Hok _) (Hok _))
    as (id & returned & record & after_upload & _ & _ & H2 & Hp & _ & _ & _ &
        Hn & Hs & Ht & _ & _ & H4 & _).
  exists id, record, after_upload.
  split; [exact H2|]. split; [exact Hp|]. split; [exact Hn|].
  split; [exact Hs|]. split; [exact Ht|]. exact H4.
Defined.

(** ** Registration and sign-in *)

(** C6: when the repeated password differs from the password, the
    registration handler shows "Passwords do not match" and returns; the
    hosted services are exactly as before: no call was issued (the log did
    not grow), no identity and no profile record was created. *)
Theorem C6_password_mismatch env form v c :
  password form ≠ repeatPassword form →
  let r := handleFirebaseRegister env form (v, c) in
  r.1 = inr tt ∧
  errorMsg r.2.1 = "Passwords do not match" ∧
  isProcessing r.2.1 = isProcessing v ∧
  r.2.2 = c ∧
  sdk_log r.2.2 = sdk_log c ∧
  auth_accounts r.2.2 = auth_accounts c ∧
  auth_currentUser r.2.2 = auth_currentUser c ∧
  users_db r.2.2 = users_db c.
Proof.
  intros Hne r. subst r.
  unfold handleFirebaseRegister, await, set_state; simpl.
  rewrite decide_True by done. simpl. done.
Qed.

Lemma C6_password_mismatch_witness :
  let form := mkLogin "alice@example.com" "secret1" "secret2" "Alice" None "" false in
  let r := handleFirebaseRegister (env_at 1000) form (form, empty_cloud) in
  errorMsg r.2.1 = "Passwords do not match" ∧ r.2.2 = empty_cloud.
Proof.
  intros form r.
  destruct (C6_password_mismatch (env_at 1000) form form empty_cloud)
    as (_ & H1 & _ & H2 & _).
  - by vm_compute.
  - split; [exact H1|exact H2].
Defined.

Lemma invalid_credentials_code_spec code :
  invalid_credentials_code code =
  bool_decide (code ∈ ["auth/invalid-credential"; "auth/user-not-found";
                       "auth/wrong-password"]).
Proof.
  unfold invalid_credentials_code.
  apply eq_true_iff_eq. rewrite !orb_true_iff, !bool_decide_eq_true.
  rewrite !elem_of_cons, elem_of_nil. tauto.
Qed.

(** C8: a sign-in attempt issues one call to the provider and the handler
    always returns; if the provider accepts, the session has the
    authenticated user and no error is shown; if the provider reports
    [auth/invalid-credential], [auth/user-not-found] or
    [auth/wrong-password], the invalid-credentials text is shown; for any
    other provider error the provider's own message is shown. *)
Theorem C8_sign_in env form v c :
  let r := handleFirebaseLogin env form (v, c) in
  r.1 = inr tt ∧
  isProcessing r.2.1 = false ∧
  sdk_log r.2.2 = sdk_log c ++ [CallSignIn (email form) (password form)] ∧
  match signIn_result env with
  | inr user => auth_currentUser r.2.2 = Some user ∧ errorMsg r.2.1 = ""
  | inl e =>
      auth_currentUser r.2.2 = auth_currentUser c ∧
      errorMsg r.2.1 =
        if bool_decide (err_code e ∈ ["auth/invalid-credential"; "auth/user-not-found";
                                      "auth/wrong-password"])
        then "password or email incorrect"
        else err_message e
  end.
Proof.
  intros r. subst r.
  unfold handleFirebaseLogin, try_finally, try_catch, await, set_state, lift_cloud,
    signInWithEmailAndPassword, resolve; simpl.
  destruct (signIn_result env) as [e|user]; simpl.
  - rewrite <-invalid_credentials_code_spec.
    destruct (invalid_credentials_code (err_code e)); simpl; done.
  - done.
Qed.

(** ** The upload handler of the documents page *)

Lemma fetchFiles_run env user v c :
  ∃ v', fetchFiles env (Some user) (v, c) =
        (inr tt, (v', log_call (CallGetDocs (uid user) "createdAt" Desc) c)).
Proof.
  unfold fetchFiles, await, set_state, lift_cloud; simpl.
  rewrite getUserFiles_run.
  destruct (getDocs_fault env); simpl; [by eexists|].
  by eexists.
Qed.

Lemma uploadUserFile_log env file owner c :
  ∃ calls,
    sdk_log (uploadUserFile env file owner c).2 =
      sdk_log c ++ CallUploadBytes (storage_path owner (file_name file)) :: calls ∧
    ∀ p, CallUploadBytes p ∉ calls.
Proof.
  rewrite uploadUserFile_run.
  destruct (uploadBytes_fault env); simpl.
  { exists []. split; [done|]. intros p. apply not_elem_of_nil. }
  destruct (getDownloadURL_result env); simpl.
  { eexists [_]. split; [by rewrite <-app_assoc|].
    intros p. rewrite elem_of_cons, elem_of_nil. intros [[=]|[]]. }
  destruct (addDoc_fault env); simpl.
  - eexists [_; _]. split; [by rewrite <-!app_assoc|].
    intros p. rewrite !elem_of_cons, elem_of_nil. intros [[=]|[[=]|[]]].
  - eexists [_; _]. split; [by rewrite <-!app_assoc|].
    intros p. rewrite !elem_of_cons, elem_of_nil. intros [[=]|[[=]|[]]].
Qed.

Lemma handleFileUpload_run env user file rest v c :
  handleFileUpload env (Some user) (Some (file :: rest)) (v, c) =
  let up := uploadUserFile env file (uid user) c in
  let v1 := setError None (setUploading true v) in
  match up.1 with
  | inl e => (inl e, (v1, up.2))
  | inr res =>
      let s2 := (if success res
                 then fetchFiles env (Some user)
                 else set_state (setError (Some (or_else (message res) "Upload failed"))))
                  (v1, up.2) in
      match s2.1 with
      | inl e => (inl e, s2.2)
      | inr _ => (inr tt, (resetInput (setUploading false s2.2.1), s2.2.2))
      end
  end.
Proof.
  unfold handleFileUpload, await, set_state, lift_cloud. cbn [fst snd].
  destruct (uploadUserFile env file (uid user) c) as [[e|res] c1]; cbn [fst snd];
    [done|].
  destruct (success res).
  - destruct (fetchFiles env (Some user) _) as [[e|[]] s2]; done.
  - done.
Qed.

(** C10: a selection event uploads at most one file.  With a non-empty
    selection and a signed-in user the handler uploads the first selected
    file and nothing else of the selection: the object store and the
    database are as after that one upload, and the only object write in the
    log is the one of the first file.  With no selection, an empty
    selection or no signed-in user the handler returns at once: page state
    (the file list included) and services are untouched. *)
Theorem C10_single_upload env currentUser target_files v c :
  let r := handleFileUpload env currentUser target_files (v, c) in
  match target_files, currentUser with
  | Some (file :: rest), Some user =>
      r = handleFileUpload env currentUser (Some [file]) (v, c) ∧
      storage r.2.2 = storage (uploadUserFile env file (uid user) c).2 ∧
      files_db r.2.2 = files_db (uploadUserFile env file (uid user) c).2 ∧
      ∃ calls,
        sdk_log r.2.2 =
          sdk_log c ++
          CallUploadBytes (storage_path (uid user) (file_name file)) :: calls ∧
        ∀ p, CallUploadBytes p ∉ calls
  | _, _ => r = (inr tt, (v, c))
  end.
Proof.
  intros r. subst r.
  destruct target_files as [[|file rest]|], currentUser as [user|];
    try reflexivity.
  split; [reflexivity|].
  destruct (uploadUserFile_log env file (uid user) c) as (calls & Hlog & Hcalls).
  rewrite handleFileUpload_run. cbn zeta.
  destruct (uploadUserFile env file (uid user) c) as [[e|res] c1] eqn:Hup.
  { rewrite uploadUserFile_run in Hup.
    destruct (uploadBytes_fault env); [done|].
    destruct (getDownloadURL_result env); [done|].
    destruct (addDoc_fault env); done. }
  cbn [fst snd] in *.
  destruct (success res).
  - destruct (fetchFiles_run env user (setError None (setUploading true v)) c1)
      as [v' ->].
    cbn. split; [done|]. split; [done|].
    exists (calls ++ [CallGetDocs (uid user) "createdAt" Desc]).
    split; [by rewrite Hlog, <-app_assoc|].
    intros p. rewrite elem_of_app, elem_of_cons, elem_of_nil.
    intros [?|[[=]|[]]]. by eapply Hcalls.
  - cbn. split; [done|]. split; [done|]. by exists calls.
Qed.

(** ** Responses *)



(** ** The order of the listing *)

Lemma StronglySorted_impl_elem {A} (R R' : relation A) (l : list A) :
  (∀ x y, x ∈ l → y ∈ l → R x y → R' x y) →
  StronglySorted R l → StronglySorted R' l.
Proof.
  intros HR Hl. induction Hl as [|x l Hl IH Hx]; [constructor|].
  constructor.
  - apply IH. intros y z Hy Hz. apply HR; by right.
  - rewrite Forall_forall in Hx |- *. intros y Hy.
    apply HR; [by left|by right|by apply Hx].
Qed.

Lemma StronglySorted_strict {A} (f : A → Z) (l : list A) :
  StronglySorted (λ x y, f y ≤ f x) l → NoDup (f <$> l) →
  StronglySorted (λ x y, f y < f x) l.
Proof.
  induction 1 as [|x l Hl IH Hx]; [constructor|].
  rewrite fmap_cons, NoDup_cons. intros [Hnot Hnd].
  constructor; [by apply IH|].
  rewrite Forall_forall in Hx |- *. intros y Hy.
  assert (f y ≠ f x).
  { intros E. apply Hnot. rewrite <-E. apply list_elem_of_fmap. eauto. }
  specialize (Hx y Hy). simpl in Hx. lia.
Qed.

Lemma created_ms_uploaded o t :
  o !! "createdAt" = Some (VTimestamp t) → created_ms o = t.
Proof. unfold created_ms, js_get. by intros ->. Qed.

Lemma created_ms_fileData file url p date t : created_ms (fileData file url p date t) = t.
Proof. apply created_ms_uploaded, fileData_createdAt. Qed.

(** On records that carry a timestamp, the query order is the order of
    the timestamps, latest first. *)
Lemma query_order_created x y t1 t2 :
  x.2 !! "createdAt" = Some (VTimestamp t1) →
  y.2 !! "createdAt" = Some (VTimestamp t2) →
  query_order "createdAt" Desc x y → created_ms y.2 ≤ created_ms x.2.
Proof.
  intros Hx Hy [H _].
  rewrite (created_ms_uploaded _ _ Hx), (created_ms_uploaded _ _ Hy).
  unfold js_get in H. by rewrite Hx, Hy in H.
Qed.

Lemma run_query_uploaded_perm coll :
  uploaded_only coll →
  run_query coll "createdAt" Desc ≡ₚ map_to_list coll.
Proof.
  intros Hu. rewrite run_query_perm.
  assert (Forall (has_field "createdAt") (map_to_list coll)) as HF.
  { apply Forall_forall. intros [i o] Hio%elem_of_map_to_list.
    destruct (Hu i o Hio) as [t Ht]. unfold has_field; simpl. by rewrite Ht. }
  induction HF as [|x l Hx HF IH]; [done|].
  rewrite filter_cons, decide_True by done. by rewrite IH.
Qed.

Lemma run_query_uploaded_sorted coll :
  uploaded_only coll →
  StronglySorted (λ x y, created_ms y.2 ≤ created_ms x.2)
    (run_query coll "createdAt" Desc).
Proof.
  intros Hu.
  apply (StronglySorted_impl_elem (query_order "createdAt" Desc));
    [|apply run_query_sorted].
  intros [i o] [j o'] [Hi _]%elem_of_run_query [Hj _]%elem_of_run_query.
  destruct (Hu i o Hi) as [t Ht], (Hu j o' Hj) as [t' Ht'].
  by apply (query_order_created _ _ t t').
Qed.

(** Every record the file service writes carries the timestamp: the
    invariant holds initially and upload and delete keep it. *)
Lemma uploaded_only_empty owner : uploaded_only (files_of empty_cloud owner).
Proof. unfold files_of; simpl. rewrite lookup_total_empty. apply map_Forall_empty. Qed.

Lemma uploaded_only_upload env file owner owner' c :
  uploaded_only (files_of c owner') →
  uploaded_only (files_of (uploadUserFile env file owner c).2 owner').
Proof.
  intros Hu. rewrite uploadUserFile_run.
  destruct (uploadBytes_fault env); [done|].
  destruct (getDownloadURL_result env); [done|].
  destruct (addDoc_fault env); [done|].
  unfold files_of at 1; simpl. rewrite lookup_total_insert.
  case_decide as Ho; [subst owner'|exact Hu].
  apply map_Forall_insert_2; [|exact Hu].
  eexists. apply fileData_createdAt.
Qed.

Lemma uploaded_only_delete env fileId path owner owner' c :
  uploaded_only (files_of c owner') →
  uploaded_only (files_of (deleteUserFile env fileId path owner c).2 owner').
Proof.
  intros Hu. rewrite deleteUserFile_run.
  destruct (deleteObject_fault env); [done|].
  destruct (deleteDoc_fault env); [done|].
  unfold files_of at 1; simpl. rewrite lookup_total_insert.
  case_decide as Ho; [subst owner'|exact Hu].
  by apply map_Forall_delete.
Qed.

Lemma uploaded_only_list env owner owner' c :
  uploaded_only (files_of c owner') →
  uploaded_only (files_of (getUserFiles env owner c).2 owner').
Proof.
  intros Hu. rewrite getUserFiles_run. by destruct (getDocs_fault env).
Qed.

Lemma reachable_uploaded_only c owner : reachable c → uploaded_only (files_of c owner).
Proof.
  unfold reachable. revert c.
  apply (rtc_ind_r (λ c, uploaded_only (files_of c owner)) empty_cloud).
  - apply uploaded_only_empty.
  - intros c1 c2 _ Hstep IH. destruct Hstep.
    + by apply uploaded_only_upload.
    + by apply uploaded_only_delete.
    + by apply uploaded_only_list.
Qed.

Lemma files_of_upload_ok env file owner c :
  no_faults env →
  ∃ id d,
    files_of c owner !! id = None ∧
    d !! "createdAt" = Some (VTimestamp (timestamp_now env)) ∧
    files_of (uploadUserFile env file owner c).2 owner = <[id := d]> (files_of c owner).
Proof.
  intros (U & [url G] & A & _).
  rewrite (uploadUserFile_ok env file owner c url U G A); simpl.
  eexists _, _. split; [apply fresh_id_unused|].
  split; [apply fileData_createdAt|].
  unfold files_of at 1; simpl. by rewrite lookup_total_insert_eq.
Qed.

(** The records of three uploads, among the documents of the collection. *)
Lemma three_new_records (coll : gmap string JsObject) id1 id2 id3 d1 d2 d3 :
  coll !! id1 = None →
  <[id1 := d1]> coll !! id2 = None →
  <[id2 := d2]> (<[id1 := d1]> coll) !! id3 = None →
  is_Some (d1 !! "createdAt") → is_Some (d2 !! "createdAt") →
  is_Some (d3 !! "createdAt") →
  filter (λ d, coll !! d.1 = None)
    (run_query (<[id3 := d3]> (<[id2 := d2]> (<[id1 := d1]> coll))) "createdAt" Desc)
  ≡ₚ [(id1, d1); (id2, d2); (id3, d3)].
Proof.
  intros H1 H2 H3 F1 F2 F3.
  apply lookup_insert_None in H2 as [H2 N21].
  apply lookup_insert_None in H3 as [H3 N32].
  apply lookup_insert_None in H3 as [H3 N31].
  apply NoDup_Permutation.
  - apply NoDup_filter, run_query_NoDup.
  - rewrite !NoDup_cons, !elem_of_cons, !elem_of_nil.
    repeat split; try apply NoDup_nil_2; intros H; intuition congruence.
  - intros [j o].
    rewrite list_elem_of_filter, elem_of_run_query, !elem_of_cons, elem_of_nil; simpl.
    rewrite !lookup_insert_Some. split.
    + intros (Hj & Hm & _).
      destruct Hm as [[<- <-]|[? [[<- <-]|[? [[<- <-]|[? ?]]]]]]; auto.
      congruence.
    + intros [[= -> ->]|[[= -> ->]|[[= -> ->]|[]]]].
      * split; [done|]. split; [|done]. right. split; [done|]. right. split; [done|].
        by left.
      * split; [done|]. split; [|done]. right. split; [done|]. by left.
      * split; [done|]. split; [|done]. by left.
Qed.

Lemma shows_document_user_file d : shows_document (user_file d) d.
Proof. repeat split; by vm_compute. Qed.

Lemma shows_document_listing (l : list (string * JsObject)) :
  Forall2 shows_document (user_file <$> l) l.
Proof.
  induction l as [|d l IH]; [constructor|].
  rewrite fmap_cons. constructor; [apply shows_document_user_file|exact IH].
Qed.

Lemma filter_listing_new coll (l : list (string * JsObject)) :
  filter (not_stored_in coll) (user_file <$> l) =
  user_file <$> filter (λ d, coll !! d.1 = None) l.
Proof.
  induction l as [|d l IH]; [done|].
  rewrite fmap_cons, !filter_cons, IH.
  assert (not_stored_in coll (user_file d) ↔ coll !! d.1 = None) as Hiff
    by (unfold not_stored_in; by rewrite user_file_id).
  destruct (decide (coll !! d.1 = None)) as [Hd|Hd].
  - by rewrite decide_True by (by apply Hiff).
  - by rewrite decide_False by (by rewrite Hiff).
Qed.

(** C7: for a user whose records were written by upload, [List] returns
    one record for each of the user's stored documents (carrying the
    document's id and copied properties), in the order of the documents'
    ordering timestamps, latest first; and after three further uploads at
    pairwise distinct times the three new records appear in the returned
    list in strictly descending order of their ordering timestamps. *)
Theorem C7_list_order env owner c :
  getDocs_fault env = None → uploaded_only (files_of c owner) →
  (∃ docs records,
     (getUserFiles env owner c).1 = inr (mkResponse true None (Some records)) ∧
     Forall2 shows_document records docs ∧
     docs ≡ₚ map_to_list (files_of c owner) ∧
     StronglySorted (λ x y, created_ms y.2 ≤ created_ms x.2) docs) ∧
  (∀ env1 env2 env3 file1 file2 file3,
     no_faults env1 → no_faults env2 → no_faults env3 →
     NoDup [timestamp_now env1; timestamp_now env2; timestamp_now env3] →
     let c3 := (uploadUserFile env3 file3 owner
                  (uploadUserFile env2 file2 owner
                     (uploadUserFile env1 file1 owner c).2).2).2 in
     ∃ docs records,
       (getUserFiles env owner c3).1 = inr (mkResponse true None (Some records)) ∧
       Forall2 shows_document records docs ∧
       docs ≡ₚ map_to_list (files_of c3 owner) ∧
       StronglySorted (λ x y, created_ms y.2 ≤ created_ms x.2) docs ∧
       let new := filter (λ d, files_of c owner !! d.1 = None) docs in
       let new_records := filter (not_stored_in (files_of c owner)) records in
       Forall2 shows_document new_records new ∧
       (λ d, created_ms d.2) <$> new ≡ₚ
         [timestamp_now env1; timestamp_now env2; timestamp_now env3] ∧
       StronglySorted (λ x y, created_ms y.2 < created_ms x.2) new).
Proof.
  intros Hg Hu. split.
  - exists (run_query (files_of c owner) "createdAt" Desc), (listing c owner).
    rewrite getUserFiles_run, Hg. split; [done|].
    split; [apply shows_document_listing|].
    split; [by apply run_query_uploaded_perm|by apply run_query_uploaded_sorted].
  - intros env1 env2 env3 file1 file2 file3 E1 E2 E3 Hnd c3.
    exists (run_query (files_of c3 owner) "createdAt" Desc), (listing c3 owner).
    rewrite getUserFiles_run, Hg. split; [done|].
    assert (uploaded_only (files_of c3 owner)) as Hu3
      by (subst c3; by repeat apply uploaded_only_upload).
    split; [apply shows_document_listing|].
    split; [by apply run_query_uploaded_perm|].
    split; [by apply run_query_uploaded_sorted|].
    intros new new_records.
    destruct (files_of_upload_ok env1 file1 owner c E1) as (id1 & d1 & N1 & T1 & M1).
    destruct (files_of_upload_ok env2 file2 owner
                (uploadUserFile env1 file1 owner c).2 E2)
      as (id2 & d2 & N2 & T2 & M2).
    destruct (files_of_upload_ok env3 file3 owner
                (uploadUserFile env2 file2 owner
                   (uploadUserFile env1 file1 owner c).2).2 E3)
      as (id3 & d3 & N3 & T3 & M3).
    fold c3 in M3. rewrite M2, M1 in M3. rewrite M1 in N2. rewrite M2, M1 in N3.
    assert (new ≡ₚ [(id1, d1); (id2, d2); (id3, d3)]) as Hnew.
    { subst new. rewrite M3. apply three_new_records; eauto. }
    assert ((λ d : string * JsObject, created_ms d.2) <$> new ≡ₚ
            [timestamp_now env1; timestamp_now env2; timestamp_now env3]) as Hts.
    { rewrite Hnew; simpl.
      by rewrite (created_ms_uploaded _ _ T1), (created_ms_uploaded _ _ T2),
        (created_ms_uploaded _ _ T3). }
    split.
    { subst new_records new. unfold listing. rewrite filter_listing_new.
      apply shows_document_listing. }
    split; [exact Hts|].
    apply (StronglySorted_strict (λ d, created_ms d.2)).
    + subst new. by apply StronglySorted_filter, run_query_uploaded_sorted.
    + by rewrite Hts.
Qed.

Lemma C7_list_order_witness :
  let c3 := (uploadUserFile (env_at 2000) report "u1"
               (uploadUserFile (env_at 1500) report_v2 "u1"
                  (uploadUserFile (env_at 3000) report "u1" cloud_one_file).2).2).2 in
  (∃ docs records,
     (getUserFiles (env_at 4000) "u1" cloud_one_file).1 =
       inr (mkResponse true None (Some records)) ∧
     Forall2 shows_document records docs ∧
     docs ≡ₚ map_to_list (files_of cloud_one_file "u1") ∧
     StronglySorted (λ x y, created_ms y.2 ≤ created_ms x.2) docs) ∧
  (∃ docs records,
     (getUserFiles (env_at 4000) "u1" c3).1 =
       inr (mkResponse true None (Some records)) ∧
     Forall2 shows_document records docs ∧
     let new := filter (λ d, files_of cloud_one_file "u1" !! d.1 = None) docs in
     let new_records := filter (not_stored_in (files_of cloud_one_file "u1")) records in
     Forall2 shows_document new_records new ∧
     (λ d, created_ms d.2) <$> new ≡ₚ [3000; 1500; 2000] ∧
     StronglySorted (λ x y, created_ms y.2 < created_ms x.2) new).
Proof.
  intros c3.
  assert (∀ t, no_faults (env_at t)) as Hok
    by (intros t; repeat split; eauto).
  destruct (C7_list_order (env_at 4000) "u1" cloud_one_file eq_refl) as [H1 H2].
  - apply uploaded_only_upload, uploaded_only_empty.
  - split; [exact H1|].
    destruct (H2 (env_at 3000) (env_at 1500) (env_at 2000) report report_v2 report
                (Hok _) (Hok _) (Hok _))
      as (docs & records & Hr & Hf & _ & _ & Hn).
    + by_compute.
    + exists docs, records. split; [exact Hr|]. split; [exact Hf|exact Hn].
Defined.

(** * Further properties of the file service *)

Lemma string_app_cons a s t : String a s +:+ t = String a (s +:+ t).
Proof. reflexivity. Qed.

Lemma has_slash_split o1 n1 o2 n2 :
  has_slash o1 = false → has_slash o2 = false →
  o1 +:+ "/" +:+ n1 = o2 +:+ "/" +:+ n2 → o1 = o2 ∧ n1 = n2.
Proof.
  revert o2. induction o1 as [|a o1 IH]; intros [|b o2]; simpl; intros H1 H2 E.
  - by injection E.
  - rewrite !string_app_cons in E. injection E as <- _.
    apply orb_false_iff in H2 as [H2 _]. by rewrite bool_decide_eq_false in H2.
  - rewrite !string_app_cons in E. injection E as -> _.
    apply orb_false_iff in H1 as [H1 _]. by rewrite bool_decide_eq_false in H1.
  - rewrite !string_app_cons in E. injection E as -> E.
    apply orb_false_iff in H1 as [_ H1]. apply orb_false_iff in H2 as [_ H2].
    destruct (IH o2 H1 H2 E) as [-> ->]. done.
Qed.

(** X1: two uploads write to the same storage path only if they are by
    the same user and of the same file name, as long as user ids contain
    no [/]. *)
Theorem storage_path_inj owner1 name1 owner2 name2 :
  has_slash owner1 = false → has_slash owner2 = false →
  storage_path owner1 name1 = storage_path owner2 name2 →
  owner1 = owner2 ∧ name1 = name2.
Proof.
  intros H1 H2 E. unfold storage_path in E.
  apply (inj (String.app "user_uploads/")) in E.
  by apply has_slash_split.
Qed.

Lemma storage_path_inj_witness :
  has_slash "u1" = false ∧
  storage_path "u1" "report.pdf" = storage_path "u1" "report.pdf" ∧
  "u1" = "u1" ∧ "report.pdf" = "report.pdf".
Proof.
  split; [reflexivity|]. split; [reflexivity|].
  apply (storage_path_inj "u1" "report.pdf" "u1" "report.pdf"); reflexivity.
Defined.

(** Without the condition the paths of different users can coincide. *)
Lemma storage_path_collision : storage_path "a/b" "c" = storage_path "a" "b/c".
Proof. reflexivity. Qed.

(** X2: an upload, whether it succeeds or fails at any step, changes no
    other user's collection, changes or removes no record already in the
    owner's collection, changes no object other than the one at its own
    storage path, and leaves profiles and identities alone. *)
Theorem upload_frame env file owner c :
  let c' := (uploadUserFile env file owner c).2 in
  (∀ owner', owner' ≠ owner → files_of c' owner' = files_of c owner') ∧
  (∀ i o, files_of c owner !! i = Some o → files_of c' owner !! i = Some o) ∧
  (∀ q, q ≠ storage_path owner (file_name file) → storage c' !! q = storage c !! q) ∧
  users_db c' = users_db c ∧ auth_accounts c' = auth_accounts c ∧
  auth_currentUser c' = auth_currentUser c.
Proof.
  intros c'. subst c'. rewrite uploadUserFile_run.
  destruct (uploadBytes_fault env); [done|].
  destruct (getDownloadURL_result env); simpl.
  { repeat split; try done. intros q Hq. by rewrite lookup_insert_ne. }
  destruct (addDoc_fault env); simpl.
  { repeat split; try done. intros q Hq. by rewrite lookup_insert_ne. }
  repeat split; try done.
  - intros owner' Hne. unfold files_of; simpl. by rewrite lookup_total_insert_ne.
  - intros i o Hio. unfold files_of at 1; simpl. rewrite lookup_total_insert_eq.
    rewrite lookup_insert_ne; [done|]. intros <-.
    by rewrite fresh_id_unused in Hio.
  - intros q Hq. by rewrite lookup_insert_ne.
Qed.

Lemma upload_frame_witness :
  let c' := (uploadUserFile (env_at 2000) report_v2 "u2" cloud_one_file).2 in
  files_of c' "u1" = files_of cloud_one_file "u1" ∧
  storage c' !! "user_uploads/u1/report.pdf" =
    storage cloud_one_file !! "user_uploads/u1/report.pdf".
Proof.
  destruct (upload_frame (env_at 2000) report_v2 "u2" cloud_one_file)
    as (H1 & _ & H3 & _).
  split; [by apply H1|by apply H3].
Defined.

(** X3: a delete whose two calls succeed removes the record with the given
    id from the owner's listing and nothing else: the listing afterwards is
    the listing before without that id (so deleting an id that is not
    listed changes nothing), and other users' collections are untouched. *)
Theorem delete_listing env fileId path owner c :
  deleteObject_fault env = None → deleteDoc_fault env = None →
  let c' := (deleteUserFile env fileId path owner c).2 in
  listing c' owner =
    filter (λ f : JsObject, f !! "id" ≠ Some (VString fileId)) (listing c owner) ∧
  ((∀ f, f ∈ listing c owner → f !! "id" ≠ Some (VString fileId)) →
   listing c' owner = listing c owner) ∧
  (∀ owner', owner' ≠ owner → files_of c' owner' = files_of c owner').
Proof.
  intros HO HD c'. subst c'. rewrite deleteUserFile_run, HO, HD; simpl.
  assert (listing (set_files_db
                     (insert owner (delete fileId
                        (files_of (log_call (CallDeleteDoc owner fileId)
                           (set_storage (delete path)
                              (log_call (CallDeleteObject path) c))) owner)))
                     (log_call (CallDeleteDoc owner fileId)
                        (set_storage (delete path)
                           (log_call (CallDeleteObject path) c)))) owner =
          filter (λ f : JsObject, f !! "id" ≠ Some (VString fileId)) (listing c owner))
    as E.
  { unfold listing. rewrite filter_listing_id, <-run_query_delete.
    unfold files_of at 1; simpl. by rewrite lookup_total_insert_eq. }
  split; [exact E|]. split.
  - intros Hno. rewrite E. clear E.
    induction (listing c owner) as [|f l IH]; [done|].
    rewrite filter_cons, decide_True by (apply Hno; by left).
    f_equal. apply IH. intros g Hg. apply Hno. by right.
  - intros owner' Hne. unfold files_of; simpl. by rewrite lookup_total_insert_ne.
Qed.

Lemma delete_listing_witness :
  listing (deleteUserFile (env_at 2000) "0" "user_uploads/u1/report.pdf" "u1"
             cloud_one_file).2 "u1" = [] ∧
  listing (deleteUserFile (env_at 2000) "7" "user_uploads/u1/report.pdf" "u1"
             cloud_one_file).2 "u1" = listing cloud_one_file "u1".
Proof.
  split.
  - destruct (delete_listing (env_at 2000) "0" "user_uploads/u1/report.pdf" "u1"
                cloud_one_file eq_refl eq_refl) as (H & _).
    rewrite H. by vm_compute.
  - destruct (delete_listing (env_at 2000) "7" "user_uploads/u1/report.pdf" "u1"
                cloud_one_file eq_refl eq_refl) as (_ & H & _).
    apply H. intros f Hf.
    assert (f = user_file ("0", fileData report "https://files.example/report.pdf"
                               "user_uploads/u1/report.pdf"
                               "2024-05-01T10:00:00.000Z" 1000)) as ->.
    { apply list_elem_of_singleton. revert Hf. by vm_compute. }
    by vm_compute.
Defined.

Lemma upload_ok_state env file owner c :
  no_faults env →
  ∃ id d returned,
    files_of c owner !! id = None ∧
    (uploadUserFile env file owner c).1 = inr (mkResponse true None (Some returned)) ∧
    returned !! "id" = Some (VString id) ∧
    d !! "storagePath" = Some (VString (storage_path owner (file_name file))) ∧
    d !! "createdAt" = Some (VTimestamp (timestamp_now env)) ∧
    files_of (uploadUserFile env file owner c).2 owner = <[id := d]> (files_of c owner) ∧
    storage (uploadUserFile env file owner c).2 =
      <[storage_path owner (file_name file) := file_content file]> (storage c).
Proof.
  intros (U & [url G] & A & _).
  rewrite (uploadUserFile_ok env file owner c url U G A); simpl.
  eexists _, _, _. split; [apply fresh_id_unused|].
  split; [done|]. split; [by rewrite lookup_insert_eq|].
  split; [apply fileData_storagePath|]. split; [apply fileData_createdAt|].
  split; [|done]. unfold files_of at 1; simpl. by rewrite lookup_total_insert_eq.
Qed.

Lemma delete_ok_state env fileId path owner c :
  deleteObject_fault env = None → deleteDoc_fault env = None →
  storage (deleteUserFile env fileId path owner c).2 = delete path (storage c) ∧
  files_of (deleteUserFile env fileId path owner c).2 owner =
    delete fileId (files_of c owner).
Proof.
  intros HO HD. rewrite deleteUserFile_run, HO, HD; simpl.
  split; [done|]. unfold files_of at 1; simpl. by rewrite lookup_total_insert_eq.
Qed.

(** X4: records that share a storage path share the object.  After two
    successful uploads of files with the same name, a successful delete of
    the first record (by its id and its storage path) removes the object at
    the shared path, while the second record stays listed and still names
    that path: its object is gone. *)
Theorem delete_shared_object env1 env2 env3 file1 file2 owner c :
  file_name file1 = file_name file2 → no_faults env1 → no_faults env2 → no_faults env3 →
  let p := storage_path owner (file_name file1) in
  let c1 := (uploadUserFile env1 file1 owner c).2 in
  let c2 := (uploadUserFile env2 file2 owner c1).2 in
  ∃ id1 id2 first second d2,
    (uploadUserFile env1 file1 owner c).1 = inr (mkResponse true None (Some first)) ∧
    first !! "id" = Some (VString id1) ∧
    (uploadUserFile env2 file2 owner c1).1 = inr (mkResponse true None (Some second)) ∧
    second !! "id" = Some (VString id2) ∧
    id1 ≠ id2 ∧
    let c3 := (deleteUserFile env3 id1 p owner c2).2 in
    storage c3 !! p = None ∧
    files_of c3 owner !! id1 = None ∧
    files_of c3 owner !! id2 = Some d2 ∧
    d2 !! "storagePath" = Some (VString p) ∧
    user_file (id2, d2) ∈ listing c3 owner.
Proof.
  intros Hname E1 E2 (_ & _ & _ & O3 & D3 & _) p c1 c2.
  destruct (upload_ok_state env1 file1 owner c E1)
    as (id1 & d1 & first & N1 & R1 & I1 & _ & _ & M1 & S1).
  destruct (upload_ok_state env2 file2 owner c1 E2)
    as (id2 & d2 & second & N2 & R2 & I2 & P2 & T2 & M2 & S2).
  fold c1 in M1, S1. fold c2 in M2, S2.
  rewrite <-Hname in P2, S2. fold p in P2, S2.
  rewrite M1 in N2. apply lookup_insert_None in N2 as [_ Hne].
  destruct (delete_ok_state env3 id1 p owner c2 O3 D3) as [S3 M3].
  exists id1, id2, first, second, d2.
  do 5 (split; [done|]). intros c3. fold c3 in S3, M3.
  assert (files_of c3 owner !! id2 = Some d2) as H2.
  { rewrite M3, M2, lookup_delete_ne, lookup_insert_eq by done. done. }
  split; [by rewrite S3, lookup_delete_eq|].
  split; [by rewrite M3, lookup_delete_eq|].
  split; [exact H2|]. split; [exact P2|].
  apply list_elem_of_fmap. exists (id2, d2). split; [done|].
  apply elem_of_run_query. split; [exact H2|]. by rewrite T2.
Qed.

Lemma delete_shared_object_witness :
  let c2 := (uploadUserFile (env_at 2000) report_v2 "u1" cloud_one_file).2 in
  ∃ id1 id2 d2,
    let c3 := (deleteUserFile (env_at 3000) id1 "user_uploads/u1/report.pdf" "u1" c2).2 in
    id1 ≠ id2 ∧
    storage c3 !! "user_uploads/u1/report.pdf" = None ∧
    files_of c3 "u1" !! id2 = Some d2 ∧
    d2 !! "storagePath" = Some (VString "user_uploads/u1/report.pdf").
Proof.
  assert (∀ t, no_faults (env_at t)) as Hok
    by (intros t; repeat split; eauto).
  destruct (delete_shared_object (env_at 1000) (env_at 2000) (env_at 3000)
              report report_v2 "u1" empty_cloud eq_refl (Hok _) (Hok _) (Hok _))
    as (id1 & id2 & first & second & d2 & _ & _ & _ & _ & Hne & H3 & _ & H5 & H6 & _).
  exists id1, id2, d2. split; [exact Hne|].
  split; [exact H3|]. split; [exact H5|exact H6].
Defined.

(** X5: for a user with no records [List] answers [success = true] with
    the empty list; a failed fetch answers [success = false] with no data,
    so the two can be told apart. *)
Theorem list_empty_collection env owner c :
  files_of c owner = ∅ →
  (getUserFiles env owner c).1 =
  match getDocs_fault env with
  | None => inr (mkResponse true None (Some []))
  | Some e => inr (mkResponse false (Some (err_message e)) None)
  end.
Proof.
  intros He. rewrite getUserFiles_run.
  destruct (getDocs_fault env); [done|].
  unfold listing, run_query. by rewrite He, map_to_list_empty.
Qed.

Lemma list_empty_collection_witness :
  (getUserFiles (env_at 1000) "u2" cloud_one_file).1 =
  inr (mkResponse true None (Some [])).
Proof.
  apply (list_empty_collection (env_at 1000) "u2" cloud_one_file). by vm_compute.
Defined.

Lemma user_file_dom d : dom (user_file d) = user_file_keys.
Proof.
  unfold user_file, user_file_keys. rewrite !dom_insert_L, dom_empty_L. set_solver.
Qed.

Lemma user_file_copies d k :
  k ∈ user_file_keys → k ≠ "id" → user_file d !! k = Some (js_get d.2 k).
Proof.
  intros Hk Hid. unfold user_file_keys in Hk.
  rewrite !elem_of_union, !elem_of_singleton in Hk.
  unfold user_file.
  destruct Hk as [[[[[[->| ->]| ->]| ->]| ->]| ->]| ->]; [done|..];
    by repeat (rewrite lookup_insert_ne by done); rewrite lookup_insert_eq.
Qed.

(** X6: every record a [List] call returns has exactly the seven
    properties id, name, size, type, downloadUrl, storagePath, uploadDate
    and stands for a stored document of the user that has the ordering
    timestamp: it has that document's id and that document's values of the
    other six properties, a property the document lacks is present with
    the value [undefined], and any further property of the document is
    dropped. *)
Theorem listed_record_shape env owner c resp l f :
  (getUserFiles env owner c).1 = inr resp → data resp = Some l → f ∈ l →
  dom f = user_file_keys ∧
  ∃ i o,
    files_of c owner !! i = Some o ∧ is_Some (o !! "createdAt") ∧
    f !! "id" = Some (VString i) ∧
    (∀ k, k ∈ user_file_keys → k ≠ "id" → f !! k = Some (js_get o k)) ∧
    (∀ k, k ∈ user_file_keys → k ≠ "id" → o !! k = None → f !! k = Some VUndefined) ∧
    (∀ k, k ∉ user_file_keys → f !! k = None).
Proof.
  rewrite getUserFiles_run.
  destruct (getDocs_fault env); simpl; intros [= <-]; [done|].
  simpl. intros [= <-]. unfold listing.
  intros ([i o] & -> & [Hio Hc]%elem_of_run_query)%list_elem_of_fmap.
  split; [apply user_file_dom|].
  exists i, o. split; [exact Hio|]. split; [exact Hc|].
  split; [apply user_file_id|].
  split; [intros k; apply user_file_copies|]. split.
  - intros k Hk Hid Hnone. rewrite user_file_copies by done.
    unfold js_get; simpl. by rewrite Hnone.
  - intros k Hk. apply not_elem_of_dom. by rewrite user_file_dom.
Qed.

Lemma listed_record_shape_witness :
  ∃ f,
    (getUserFiles (env_at 1000) "u1" cloud_odd_document).1 =
      inr (mkResponse true None (Some [f])) ∧
    dom f = user_file_keys ∧
    f !! "id" = Some (VString "7") ∧
    f !! "name" = Some (VString "a.txt") ∧
    f !! "size" = Some VUndefined ∧
    f !! "colour" = None.
Proof.
  set (o := ({["createdAt" := VTimestamp 5; "name" := VString "a.txt";
               "colour" := VString "red"]} : JsObject)).
  set (f := ({["id" := VString "7"; "name" := VString "a.txt"; "size" := VUndefined;
               "type" := VUndefined; "downloadUrl" := VUndefined;
               "storagePath" := VUndefined; "uploadDate" := VUndefined]} : JsObject)).
  assert ((getUserFiles (env_at 1000) "u1" cloud_odd_document).1 =
          inr (mkResponse true None (Some [f]))) as Hrun by (by vm_compute).
  destruct (listed_record_shape (env_at 1000) "u1" cloud_odd_document
              (mkResponse true None (Some [f])) [f] f Hrun eq_refl)
    as (Hdom & i & o' & _ & _ & _ & _ & _ & Hdrop).
  { by left. }
  exists f. split; [exact Hrun|]. split; [exact Hdom|].
  split; [by vm_compute|]. split; [by vm_compute|]. split; [by vm_compute|].
  apply Hdrop. by vm_compute.
Defined.

(** X7: the ids of the records of a listing are pairwise distinct. *)
Theorem listing_ids_distinct c owner :
  NoDup ((λ f : JsObject, js_get f "id") <$> listing c owner).
Proof.
  unfold listing. rewrite <-list_fmap_compose.
  apply NoDup_fmap_2_strong; [|apply run_query_NoDup].
  intros x y Hx Hy. simpl. unfold js_get. rewrite !user_file_id. simpl.
  intros [= E]. by eapply run_query_unique_id.
Qed.

Lemma uploaded_record_fileData owner file url date t :
  uploaded_record owner
    (fileData file url (storage_path owner (file_name file)) date t).
Proof.
  exists (file_name file), (file_size file), (file_type file), url, date, t.
  repeat split; by vm_compute.
Qed.

(** X8: in every state the file service can reach from the empty one,
    every stored record of every user has all of name, size, type,
    downloadUrl, storagePath, uploadDate and createdAt with the types the
    upload writes, and its storage path is the path of the owner and the
    record's name; so no record of a listing has an undefined property. *)
Theorem reachable_records c :
  reachable c →
  (∀ owner i o, files_of c owner !! i = Some o → uploaded_record owner o) ∧
  (∀ owner f k, f ∈ listing c owner → k ∈ user_file_keys → f !! k ≠ Some VUndefined).
Proof.
  intros Hr.
  assert (∀ owner i o, files_of c owner !! i = Some o → uploaded_record owner o) as Hinv.
  { revert c Hr.
    apply (rtc_ind_r (λ c, ∀ owner i o, files_of c owner !! i = Some o →
                           uploaded_record owner o) empty_cloud).
    - intros owner i o Hio. exfalso. revert Hio. unfold files_of; simpl.
      rewrite lookup_total_empty. apply lookup_empty_Some.
    - intros c1 c2 _ Hstep IH owner' i o. destruct Hstep.
      + rewrite uploadUserFile_run.
        destruct (uploadBytes_fault env); [apply IH|].
        destruct (getDownloadURL_result env); [apply IH|].
        destruct (addDoc_fault env); [apply IH|].
        unfold files_of at 1; simpl. rewrite lookup_total_insert.
        case_decide as Ho; [subst owner'|apply IH].
        rewrite lookup_insert_Some. intros [[_ <-]|[_ Hi]]; [|by eapply IH].
        apply uploaded_record_fileData.
      + rewrite deleteUserFile_run.
        destruct (deleteObject_fault env); [apply IH|].
        destruct (deleteDoc_fault env); [apply IH|].
        unfold files_of at 1; simpl. rewrite lookup_total_insert.
        case_decide as Ho; [subst owner'|apply IH].
        rewrite lookup_delete_Some. intros [_ Hi]. by eapply IH.
      + rewrite getUserFiles_run. destruct (getDocs_fault env); apply IH. }
  split; [exact Hinv|].
  intros owner f k ([i o] & -> & [Hio _]%elem_of_run_query)%list_elem_of_fmap Hk.
  destruct (Hinv owner i o Hio) as (n & sz & ty & url & date & t & H1 & H2 & H3 & H4 & H5 & H6 & _).
  unfold user_file_keys in Hk. rewrite !elem_of_union, !elem_of_singleton in Hk.
  unfold user_file, js_get; simpl. rewrite H1, H2, H3, H4, H5, H6; simpl.
  destruct Hk as [[[[[[->| ->]| ->]| ->]| ->]| ->]| ->];
    repeat (rewrite lookup_insert_ne by done); rewrite lookup_insert_eq; done.
Qed.

Lemma reachable_records_witness :
  reachable cloud_one_file ∧
  uploaded_record "u1"
    (fileData report "https://files.example/report.pdf" "user_uploads/u1/report.pdf"
       "2024-05-01T10:00:00.000Z" 1000).
Proof.
  assert (reachable cloud_one_file) as Hr.
  { apply rtc_once. apply (step_upload (env_at 1000) report "u1" empty_cloud). }
  split; [exact Hr|].
  destruct (reachable_records cloud_one_file Hr) as [H _].
  apply (H "u1" "0"). by vm_compute.
Defined.

(** * Further properties of the documents page *)

Lemma fetchFiles_full env user v c :
  fetchFiles env (Some user) (v, c) =
  (inr tt,
   (match getDocs_fault env with
    | None => setLoading false (setFiles (listing c (uid user)) (setLoading true v))
    | Some e =>
        setLoading false
          (setError (Some (or_else (Some (err_message e)) "Failed to load files"))
             (setLoading true v))
    end,
    log_call (CallGetDocs (uid user) "createdAt" Desc) c)).
Proof.
  unfold fetchFiles, await, set_state, lift_cloud; simpl.
  rewrite getUserFiles_run.
  destruct (getDocs_fault env); done.
Qed.

(** X9: a refresh never rejects.  With a signed-in user it issues one
    query and ends with [loading] off: when the query succeeds the page
    shows the listing and an error shown before is not cleared; when it
    fails the list stays as it was and the error shown is the failure's
    message, or "Failed to load files" if that message is empty.  Without
    a user it does nothing. *)
Theorem fetchFiles_outcome env currentUser v c :
  let r := fetchFiles env currentUser (v, c) in
  r.1 = inr tt ∧
  match currentUser with
  | None => r.2 = (v, c)
  | Some user =>
      r.2.2 = log_call (CallGetDocs (uid user) "createdAt" Desc) c ∧
      loading r.2.1 = false ∧ uploading r.2.1 = uploading v ∧
      fileInput r.2.1 = fileInput v ∧
      match getDocs_fault env with
      | None => files r.2.1 = listing c (uid user) ∧ error r.2.1 = error v
      | Some e =>
          files r.2.1 = files v ∧
          error r.2.1 = Some (if decide (err_message e = "")
                              then "Failed to load files" else err_message e)
      end
  end.
Proof.
  intros r. subst r. destruct currentUser as [user|]; [|done].
  rewrite fetchFiles_full. destruct (getDocs_fault env); done.
Qed.

(** X10: with a selection and a signed-in user the upload handler never
    rejects and always ends with [uploading] off and the file input reset.
    If the upload fails, no refresh is attempted, the list stays and the
    error shown is the upload's message (or "Upload failed" if it is
    empty).  If the upload succeeds, one refresh follows: when it succeeds
    the page shows the listing after the upload and no error; when it fails
    the record is stored but the list stays as it was and the refresh's
    error is shown. *)
Theorem handleFileUpload_outcome env user file rest v c :
  let up := uploadUserFile env file (uid user) c in
  let r := handleFileUpload env (Some user) (Some (file :: rest)) (v, c) in
  r.1 = inr tt ∧ uploading r.2.1 = false ∧
  fileInput r.2.1 = match fileInput v with Some _ => Some "" | None => None end ∧
  ∃ res, up.1 = inr res ∧
    if success res
    then
      r.2.2 = log_call (CallGetDocs (uid user) "createdAt" Desc) up.2 ∧
      loading r.2.1 = false ∧
      match getDocs_fault env with
      | None => files r.2.1 = listing up.2 (uid user) ∧ error r.2.1 = None
      | Some e =>
          files r.2.1 = files v ∧
          error r.2.1 = Some (if decide (err_message e = "")
                              then "Failed to load files" else err_message e)
      end
    else
      r.2.2 = up.2 ∧ files r.2.1 = files v ∧ loading r.2.1 = loading v ∧
      error r.2.1 = Some (or_else (message res) "Upload failed").
Proof.
  intros up r. subst up r. rewrite handleFileUpload_run. cbn zeta.
  destruct (uploadUserFile env file (uid user) c) as [[e|res] c1] eqn:Hup.
  { rewrite uploadUserFile_run in Hup.
    destruct (uploadBytes_fault env); [done|].
    destruct (getDownloadURL_result env); [done|].
    destruct (addDoc_fault env); done. }
  cbn [fst snd].
  destruct (success res) eqn:Hs.
  - rewrite fetchFiles_full. cbn [fst snd].
    split; [done|]. destruct (getDocs_fault env) as [e|]; simpl.
    + split; [done|]. split; [done|]. exists res. rewrite Hs. done.
    + split; [done|]. split; [done|]. exists res. rewrite Hs. done.
  - simpl. split; [done|]. split; [done|]. split; [done|].
    exists res. rewrite Hs. done.
Qed.

(** X11: when nothing fails, the page after the upload handler shows a
    record with the id the upload returned and the uploaded file's name,
    size and MIME type, next to every record listed before. *)
Theorem handleFileUpload_shows_record env user file rest v c :
  no_faults env →
  let r := handleFileUpload env (Some user) (Some (file :: rest)) (v, c) in
  ∃ id returned record,
    (uploadUserFile env file (uid user) c).1 =
      inr (mkResponse true None (Some returned)) ∧
    returned !! "id" = Some (VString id) ∧
    record ∈ files r.2.1 ∧
    record !! "id" = Some (VString id) ∧
    record !! "name" = Some (VString (file_name file)) ∧
    record !! "size" = Some (VNumber (file_size file)) ∧
    record !! "type" = Some (VString (file_type file)) ∧
    files r.2.1 ≡ₚ record :: listing c (uid user).
Proof.
  intros (U & [url G] & A & _ & _ & L) r.
  assert (files r.2.1 = listing (uploadUserFile env file (uid user) c).2 (uid user))
    as Hf.
  { subst r. rewrite handleFileUpload_run. cbn zeta.
    rewrite (uploadUserFile_ok env file (uid user) c url U G A). cbn [fst snd success].
    rewrite fetchFiles_full, L. done. }
  rewrite (uploadUserFile_ok env file (uid user) c url U G A) in Hf |- *.
  cbn [fst snd] in *.
  set (p := storage_path (uid user) (file_name file)) in *.
  set (d := fileData file url p (date_now_iso env) (timestamp_now env)) in *.
  set (id := fresh (dom (files_of c (uid user)))) in *.
  assert (files r.2.1 ≡ₚ user_file (id, d) :: listing c (uid user)) as Hperm.
  { rewrite Hf. unfold listing, files_of at 1; simpl.
    rewrite lookup_total_insert_eq.
    rewrite run_query_insert_perm; [done|apply fresh_id_unused|].
    eexists. apply fileData_createdAt. }
  destruct (user_file_of_fileData id file url p (date_now_iso env) (timestamp_now env))
    as (F1 & F2 & F3 & F4 & _).
  exists id, (<["id" := VString id]> d), (user_file (id, d)).
  split; [done|]. split; [by rewrite lookup_insert_eq|].
  split; [rewrite Hperm; by left|].
  do 4 (split; [done|]). exact Hperm.
Qed.

Lemma handleFileUpload_shows_record_witness :
  let r := handleFileUpload (env_at 2000) (Some alice) (Some [report_v2; report])
             (mkDocumentsPage [] true false None (Some "report.pdf"), cloud_one_file) in
  ∃ record,
    record ∈ files r.2.1 ∧
    record !! "size" = Some (VNumber 4) ∧
    files r.2.1 ≡ₚ record :: listing cloud_one_file "u1".
Proof.
  intros r.
  destruct (handleFileUpload_shows_record (env_at 2000) alice report_v2 [report]
              (mkDocumentsPage [] true false None (Some "report.pdf")) cloud_one_file)
    as (id & returned & record & _ & _ & H1 & _ & _ & H2 & _ & H3).
  - repeat split; eauto.
  - exists record. split; [exact H1|]. split; [exact H2|exact H3].
Defined.

Lemma handleDelete_run env penv user rendered file v j c :
  handleDelete env penv (Some user) rendered file ((v, j), c) =
  let j1 := j ++ [Confirm ("Are you sure you want to delete " +:+ dquote +:+
                           string_of (js_get file "name") +:+ dquote +:+ "?")] in
  if confirm_answer penv
  then
    let del := deleteUserFile env (string_of (js_get file "id"))
                 (string_of (js_get file "storagePath")) (uid user) c in
    match del.1 with
    | inl e => (inl e, ((v, j1), del.2))
    | inr res =>
        if success res
        then (inr tt,
              ((setFiles (filter (λ f, js_get f "id" ≠ js_get file "id") (files rendered)) v,
                j1), del.2))
        else (inr tt,
              ((v, j1 ++ [Alert ("Failed to delete file: " +:+
                                 default "undefined" (message res))]), del.2))
    end
  else (inr tt, ((v, j1), c)).
Proof.
  unfold handleDelete, await, journal, set_page, set_state, lift_cloud, resolve.
  cbn [fst snd].
  destruct (confirm_answer penv); cbn [negb fst snd]; [|done].
  destruct (deleteUserFile env _ _ (uid user) c) as [[e|res] c1]; cbn [fst snd];
    [done|].
  destruct (success res); done.
Qed.

(** X12: the delete handler does nothing at all without a signed-in user,
    and when the user declines the confirmation it only has asked: no call
    is issued, nothing is deleted, the page is unchanged. *)
Theorem handleDelete_declined env penv currentUser rendered file v j c :
  currentUser = None ∨ confirm_answer penv = false →
  let r := handleDelete env penv currentUser rendered file ((v, j), c) in
  r.1 = inr tt ∧ r.2.1.1 = v ∧ r.2.2 = c ∧
  match currentUser with
  | None => r.2.1.2 = j
  | Some _ =>
      r.2.1.2 = j ++ [Confirm ("Are you sure you want to delete " +:+ dquote +:+
                               string_of (js_get file "name") +:+ dquote +:+ "?")]
  end.
Proof.
  intros H r. subst r. destruct currentUser as [user|]; [|done].
  destruct H as [?|H]; [done|].
  rewrite handleDelete_run, H. done.
Qed.

Lemma handleDelete_declined_witness :
  let v := mkDocumentsPage (listing cloud_one_file "u1") false false None None in
  let r := handleDelete (env_at 2000) (mkPageEnv None None None None false) (Some alice)
             v (user_file ("0", ∅)) ((v, []), cloud_one_file) in
  r.2.1.1 = v ∧ r.2.2 = cloud_one_file.
Proof.
  intros v r.
  destruct (handleDelete_declined (env_at 2000) (mkPageEnv None None None None false)
              (Some alice) v (user_file ("0", ∅)) v [] cloud_one_file)
    as (_ & H1 & H2 & _).
  - by right.
  - split; [exact H1|exact H2].
Defined.

Lemma filter_listing_row (l : list (string * JsObject)) id :
  filter (λ f : JsObject, js_get f "id" ≠ VString id) (user_file <$> l) =
  user_file <$> filter (λ x, x.1 ≠ id) l.
Proof.
  induction l as [|x l IH]; [done|].
  assert (js_get (user_file x) "id" = VString x.1) as Hid
    by (unfold js_get; by rewrite user_file_id).
  rewrite fmap_cons, !filter_cons, IH, Hid.
  destruct (decide (x.1 = id)) as [Hx|Hx]; repeat case_decide;
    try done; try congruence; simplify_eq; tauto.
Qed.

(** X13: deleting a listed row keeps the page in step with the database
    without a refresh.  If the page shows the user's listing, the user
    confirms, and both deletion calls succeed, then the handler issues
    exactly the two deletion calls, for the row's id and storage path, and
    no query, and the list it leaves on the page is the listing of the
    database after the delete, without the row. *)
Theorem handleDelete_in_step env penv user rendered file v j c :
  confirm_answer penv = true →
  deleteObject_fault env = None → deleteDoc_fault env = None →
  files rendered = listing c (uid user) → file ∈ files rendered →
  let r := handleDelete env penv (Some user) rendered file ((v, j), c) in
  r.1 = inr tt ∧
  files r.2.1.1 = listing r.2.2 (uid user) ∧
  (file ∉ files r.2.1.1) ∧
  ∃ id,
    file !! "id" = Some (VString id) ∧
    sdk_log r.2.2 =
      sdk_log c ++ [CallDeleteObject (string_of (js_get file "storagePath"));
                    CallDeleteDoc (uid user) id].
Proof.
  intros Hc HO HD Hfiles Hin r.
  rewrite Hfiles in Hin. unfold listing in Hin.
  apply list_elem_of_fmap in Hin as ([i o] & -> & Hio).
  pose proof Hio as [Hlook _]%elem_of_run_query.
  assert (js_get (user_file (i, o)) "id" = VString i) as Hid
    by (unfold js_get; by rewrite user_file_id).
  assert (js_get (user_file (i, o)) "storagePath" = js_get o "storagePath") as Hpath
    by (by vm_compute).
  destruct (delete_ok_state env i (string_of (js_get o "storagePath")) (uid user) c HO HD)
    as [_ Hdel].
  subst r. rewrite handleDelete_run, Hc, Hid, Hpath. cbn zeta. cbn [string_of].
  rewrite deleteUserFile_run, HO, HD in Hdel |- *. cbn [fst snd success] in *.
  set (c' := set_files_db _ _) in *.
  assert (filter (λ f : JsObject, js_get f "id" ≠ VString i) (files rendered) =
          listing c' (uid user)) as Hsync.
  { rewrite Hfiles. unfold listing. rewrite filter_listing_row, Hdel.
    by rewrite run_query_delete. }
  split; [done|]. split; [exact Hsync|]. split.
  { simpl. rewrite list_elem_of_filter. intros [Hne _]. by apply Hne. }
  exists i. split; [apply user_file_id|].
  subst c'. simpl. by rewrite <-app_assoc.
Qed.

Lemma handleDelete_in_step_witness :
  let v := mkDocumentsPage (listing cloud_one_file "u1") false false None None in
  let file := user_file ("0", fileData report "https://files.example/report.pdf"
                                "user_uploads/u1/report.pdf"
                                "2024-05-01T10:00:00.000Z" 1000) in
  let r := handleDelete (env_at 2000) page_ok_env (Some alice) v file
             ((v, []), cloud_one_file) in
  files r.2.1.1 = listing r.2.2 "u1" ∧ (file ∉ files r.2.1.1).
Proof.
  intros v file r.
  destruct (handleDelete_in_step (env_at 2000) page_ok_env alice v file v []
              cloud_one_file eq_refl eq_refl eq_refl eq_refl)
    as (_ & H1 & H2 & _).
  - by_compute.
  - split; [exact H1|exact H2].
Defined.

(** X14: when a deletion call fails after the user confirmed, the handler
    still returns normally, leaves the page's list as it was and shows
    "Failed to delete file: " followed by the failure's message.  If it was
    the metadata deletion that failed, the object is already gone while the
    row stays on the page and in the database. *)
Theorem handleDelete_failure env penv user rendered file v j c :
  confirm_answer penv = true →
  let path := string_of (js_get file "storagePath") in
  let asked := j ++ [Confirm ("Are you sure you want to delete " +:+ dquote +:+
                              string_of (js_get file "name") +:+ dquote +:+ "?")] in
  let r := handleDelete env penv (Some user) rendered file ((v, j), c) in
  match deleteObject_fault env, deleteDoc_fault env with
  | Some e, _ =>
      r.1 = inr tt ∧ r.2.1.1 = v ∧
      r.2.1.2 = asked ++ [Alert ("Failed to delete file: " +:+ err_message e)] ∧
      storage r.2.2 = storage c ∧ files_db r.2.2 = files_db c
  | None, Some e =>
      r.1 = inr tt ∧ r.2.1.1 = v ∧
      r.2.1.2 = asked ++ [Alert ("Failed to delete file: " +:+ err_message e)] ∧
      storage r.2.2 = delete path (storage c) ∧ files_db r.2.2 = files_db c
  | None, None => r.1 = inr tt ∧ r.2.1.2 = asked
  end.
Proof.
  intros Hc path asked r. subst r. rewrite handleDelete_run, Hc. cbn zeta.
  rewrite deleteUserFile_run.
  destruct (deleteObject_fault env) as [e|]; [done|].
  destruct (deleteDoc_fault env) as [e|]; done.
Qed.

Lemma handleDelete_failure_witness :
  let v := mkDocumentsPage (listing cloud_one_file "u1") false false None None in
  let file := user_file ("0", fileData report "https://files.example/report.pdf"
                                "user_uploads/u1/report.pdf"
                                "2024-05-01T10:00:00.000Z" 1000) in
  let r := handleDelete env_object_delete_fails page_ok_env (Some alice) v file
             ((v, []), cloud_one_file) in
  r.2.1.1 = v ∧ files_db r.2.2 = files_db cloud_one_file.
Proof.
  intros v file r.
  destruct (handleDelete_failure env_object_delete_fails page_ok_env alice v file v []
              cloud_one_file eq_refl) as (_ & H1 & _ & _ & H2).
  split; [exact H1|exact H2].
Defined.

(** * Further properties of registration *)

Lemma handleFirebaseRegister_run env form v c :
  password form = repeatPassword form →
  handleFirebaseRegister env form (v, c) =
  let name := or_else (Some (displayName form)) "New User" in
  let photo := match photoFile form with
               | Some f => file_name f
               | None => "default-avatar.png"
               end in
  let shown e := if bool_decide (err_code e = "auth/email-already-in-use")
                 then "user already exist, sign in?" else err_message e in
  let failed e := setIsProcessing false (setErrorMsg (shown e)
                    (setIsProcessing true (setErrorMsg "" v))) in
  let c1 := log_call (CallCreateUser (email form) (password form)) c in
  match createUser_result env with
  | inl e => (inr tt, (failed e, c1))
  | inr user =>
      let c2 := log_call (CallUpdateProfile (uid user) name photo)
                  (set_auth (<[uid user := user]> (auth_accounts c1)) (Some user) c1) in
      match updateProfile_fault env with
      | Some e => (inr tt, (failed e, c2))
      | None =>
          let user' := mkUser (uid user) (user_email user) (Some name) (Some photo) in
          let c3 := log_call (CallSetDoc (uid user) (profile_doc name (email form) photo))
                      (set_auth (<[uid user := user']> (auth_accounts c2))
                                (Some user') c2) in
          match setDoc_fault env with
          | Some e => (inr tt, (failed e, c3))
          | None =>
              (inr tt,
               (setIsProcessing false (setIsProcessing true (setErrorMsg "" v)),
                set_users_db (insert (uid user) (profile_doc name (email form) photo)) c3))
          end
      end
  end.
Proof.
  intros Hpw.
  unfold handleFirebaseRegister, await at 1, set_state at 1. cbn [fst snd].
  rewrite decide_False by (intros H; by apply H).
  unfold try_finally, try_catch, await, set_state, lift_cloud,
    createUserWithEmailAndPassword, updateProfile, setDoc, sdk_call. cbn [fst snd].
  destruct (createUser_result env) as [e|user]; cbn [fst snd].
  { destruct (bool_decide _); reflexivity. }
  destruct (updateProfile_fault env) as [e|]; cbn [fst snd].
  { destruct (bool_decide _); reflexivity. }
  unfold log_call, set_auth, set_users_db.
  cbn [auth_currentUser auth_accounts storage files_db users_db sdk_log fst snd].
  rewrite decide_True by reflexivity.
  destruct (setDoc_fault env) as [e|]; cbn [fst snd].
  { destruct (bool_decide _); reflexivity. }
  reflexivity.
Qed.

(** X15: a registration whose three calls succeed creates the identity,
    signs it in, and stores a profile document holding the display name
    (or "New User" if the field was left empty), the e-mail typed into the
    form and the selected photo's file name (or "default-avatar.png"
    without a photo); the identity's display name and photo reference are
    set to the same values; no error is shown and processing has ended. *)
Theorem register_success env form v c user :
  password form = repeatPassword form →
  createUser_result env = inr user → updateProfile_fault env = None →
  setDoc_fault env = None →
  let name := if decide (displayName form = "") then "New User" else displayName form in
  let photo := match photoFile form with
               | Some f => file_name f
               | None => "default-avatar.png"
               end in
  let identity := mkUser (uid user) (user_email user) (Some name) (Some photo) in
  let r := handleFirebaseRegister env form (v, c) in
  r.1 = inr tt ∧ errorMsg r.2.1 = "" ∧ isProcessing r.2.1 = false ∧
  users_db r.2.2 = <[uid user := profile_doc name (email form) photo]> (users_db c) ∧
  auth_accounts r.2.2 = <[uid user := identity]> (auth_accounts c) ∧
  auth_currentUser r.2.2 = Some identity ∧
  sdk_log r.2.2 = sdk_log c ++
    [CallCreateUser (email form) (password form);
     CallUpdateProfile (uid user) name photo;
     CallSetDoc (uid user) (profile_doc name (email form) photo)].
Proof.
  intros Hpw HC HU HS name photo identity r. subst r.
  rewrite (handleFirebaseRegister_run env form v c Hpw), HC, HU, HS. cbn zeta.
  cbn [fst snd]. repeat split.
  - simpl. by rewrite insert_insert_eq.
  - simpl. by rewrite <-!app_assoc.
Qed.

Lemma register_success_witness :
  let form := mkLogin "alice@example.com" "secret1" "secret1" "" None "stale" false in
  let r := handleFirebaseRegister (env_at 1000) form (form, empty_cloud) in
  errorMsg r.2.1 = "" ∧
  users_db r.2.2 =
    <["u1" := profile_doc "New User" "alice@example.com" "default-avatar.png"]> ∅.
Proof.
  intros form r.
  destruct (register_success (env_at 1000) form form empty_cloud alice
              eq_refl eq_refl eq_refl eq_refl) as (_ & H1 & _ & H2 & _).
  split; [exact H1|exact H2].
Defined.

(** X16: when the provider rejects the new identity, registration stops
    after that one call: no identity, session or profile document is
    created, processing ends, and the error shown is "user already exist,
    sign in?" for the code [auth/email-already-in-use] and the provider's
    message for any other code. *)
Theorem register_rejected env form v c e :
  password form = repeatPassword form → createUser_result env = inl e →
  let r := handleFirebaseRegister env form (v, c) in
  r.1 = inr tt ∧ isProcessing r.2.1 = false ∧
  errorMsg r.2.1 = (if bool_decide (err_code e = "auth/email-already-in-use")
                    then "user already exist, sign in?" else err_message e) ∧
  auth_accounts r.2.2 = auth_accounts c ∧ auth_currentUser r.2.2 = auth_currentUser c ∧
  users_db r.2.2 = users_db c ∧
  sdk_log r.2.2 = sdk_log c ++ [CallCreateUser (email form) (password form)].
Proof.
  intros Hpw HC r. subst r.
  rewrite (handleFirebaseRegister_run env form v c Hpw), HC. done.
Qed.

Lemma register_rejected_witness :
  let form := mkLogin "alice@example.com" "secret1" "secret1" "Alice" None "" false in
  let env := mkEnv None (inr "") None None None None "" 0
               (inr alice) (inl (mkError "auth/email-already-in-use" "in use")) None None in
  let r := handleFirebaseRegister env form (form, empty_cloud) in
  errorMsg r.2.1 = "user already exist, sign in?" ∧ users_db r.2.2 = ∅.
Proof.
  intros form env r.
  destruct (register_rejected env form form empty_cloud
              (mkError "auth/email-already-in-use" "in use") eq_refl eq_refl)
    as (_ & _ & H1 & _ & _ & H2 & _).
  split; [exact H1|exact H2].
Defined.

(** * Further properties of the account handlers *)

Lemma fetchAndSyncUserProfile_run env penv user v j c :
  fetchAndSyncUserProfile env penv user ((v, j), c) =
  let j1 := j ++ [CallGetDoc (uid user)] in
  match getDoc_fault penv with
  | Some e => (inr tt, ((v, j1), c))
  | None =>
      match users_db c !! uid user with
      | Some d => (inr tt, ((setUserProfile (Some d) v, j1), c))
      | None =>
          let newProfile :=
            profile_doc (or_else (user_displayName user) "User")
                        (or_else (Some (user_email user)) "")
                        (or_else (user_photoURL user) "default-avatar.png") in
          let c1 := log_call (CallSetDoc (uid user) newProfile) c in
          match setDoc_fault env with
          | Some e => (inr tt, ((v, j1), c1))
          | None => (inr tt, ((setUserProfile (Some newProfile) v, j1),
                              set_users_db (insert (uid user) newProfile) c1))
          end
      end
  end.
Proof.
  unfold fetchAndSyncUserProfile, getDoc, page_call, journal, try_catch, await,
    set_page, set_state, lift_cloud, setDoc, sdk_call, resolve.
  cbn [fst snd].
  destruct (getDoc_fault penv); [reflexivity|].
  cbn [fst snd].
  destruct (users_db c !! uid user); [reflexivity|].
  cbn [fst snd]. destruct (setDoc_fault env); reflexivity.
Qed.

(** X18: after a profile synchronisation in which no call failed, a
    profile document exists for the user and the page holds exactly that
    document.  An existing document is taken as it is and the database is
    not written; a missing one is created from the identity's display
    name, e-mail and photo reference, with "User" and "default-avatar.png"
    for an absent or empty name or photo.  Synchronising again changes
    nothing in the database. *)
Theorem fetchAndSync_profile env penv user v j c :
  getDoc_fault penv = None → setDoc_fault env = None →
  let r := fetchAndSyncUserProfile env penv user ((v, j), c) in
  r.1 = inr tt ∧
  ∃ p,
    users_db r.2.2 !! uid user = Some p ∧ userProfile r.2.1.1 = Some p ∧
    (∀ d, users_db c !! uid user = Some d → p = d ∧ r.2.2 = c) ∧
    (users_db c !! uid user = None →
     p = profile_doc (or_else (user_displayName user) "User") (user_email user)
                     (or_else (user_photoURL user) "default-avatar.png") ∧
     users_db r.2.2 = <[uid user := p]> (users_db c)) ∧
    (∀ env' penv', getDoc_fault penv' = None →
       let r' := fetchAndSyncUserProfile env' penv' user r.2 in
       r'.2.2 = r.2.2 ∧ userProfile r'.2.1.1 = Some p).
Proof.
  intros HG HS r. subst r. rewrite fetchAndSyncUserProfile_run, HG. cbn zeta.
  destruct (users_db c !! uid user) as [d|] eqn:Hd.
  - split; [done|]. exists d. cbn [fst snd].
    split; [done|]. split; [done|].
    split; [by intros ? [= <-]|]. split; [done|].
    intros env' penv' HG'. rewrite fetchAndSyncUserProfile_run, HG', Hd. done.
  - rewrite HS. split; [done|]. eexists. cbn [fst snd].
    split; [simpl; apply lookup_insert_eq|]. split; [done|].
    split; [done|]. split.
    { intros _. split; [|done]. unfold or_else at 2.
      destruct (decide (user_email user = "")) as [->|]; done. }
    intros env' penv' HG'. rewrite fetchAndSyncUserProfile_run, HG'. simpl.
    rewrite lookup_insert_eq. done.
Qed.

Lemma fetchAndSync_profile_witness :
  let v := mkLoginPage (mkLogin "" "" "" "" None "" false) (Some alice) None true
             signin false "" None in
  let r := fetchAndSyncUserProfile (env_at 1000) page_ok_env alice ((v, []), empty_cloud) in
  userProfile r.2.1.1 = Some (profile_doc "User" "alice@example.com" "default-avatar.png") ∧
  users_db r.2.2 !! "u1" = userProfile r.2.1.1.
Proof.
  intros v r.
  destruct (fetchAndSync_profile (env_at 1000) page_ok_env alice v [] empty_cloud
              eq_refl eq_refl) as (_ & p & H1 & H2 & _ & H3 & _).
  destruct H3 as [-> _]; [reflexivity|].
  fold r in H1, H2. split; [exact H2|].
  etrans; [exact H1|symmetry; exact H2].
Defined.

(** X19: a failure during profile synchronisation is swallowed.  If
    reading the profile fails, or the profile is missing and writing the
    new one fails, the handler still returns normally, shows no dialog,
    leaves the page (its profile included) as it was, and no profile
    document has been written. *)
Theorem fetchAndSync_failure env penv user v j c e :
  getDoc_fault penv = Some e ∨
    (getDoc_fault penv = None ∧ users_db c !! uid user = None ∧
     setDoc_fault env = Some e) →
  let r := fetchAndSyncUserProfile env penv user ((v, j), c) in
  r.1 = inr tt ∧ r.2.1.1 = v ∧ r.2.1.2 = j ++ [CallGetDoc (uid user)] ∧
  users_db r.2.2 = users_db c ∧ auth_accounts r.2.2 = auth_accounts c.
Proof.
  intros H r. subst r. rewrite fetchAndSyncUserProfile_run.
  destruct H as [->|(-> & -> & ->)]; done.
Qed.

Lemma fetchAndSync_failure_witness :
  let v := mkLoginPage (mkLogin "" "" "" "" None "" false) (Some alice) None true
             signin false "" None in
  let r := fetchAndSyncUserProfile (env_at 1000)
             (mkPageEnv (Some network_error) None None None true) alice
             ((v, []), empty_cloud) in
  r.1 = inr tt ∧ r.2.1.1 = v ∧ users_db r.2.2 = ∅.
Proof.
  intros v r.
  destruct (fetchAndSync_failure (env_at 1000)
              (mkPageEnv (Some network_error) None None None true) alice v []
              empty_cloud network_error) as (H1 & H2 & _ & H3 & _).
  - by left.
  - split; [exact H1|]. split; [exact H2|exact H3].
Defined.

(** X20: the auth-state callback never rejects, records the user it was
    given and always ends with the page's loading flag off.  For a signed
    out state it clears the profile and issues no call; for a signed-in
    user the services end up as after a profile synchronisation for that
    user. *)
Theorem onAuthStateChanged_outcome env penv user v j c :
  let r := onAuthStateChanged env penv user ((v, j), c) in
  r.1 = inr tt ∧ login_loading r.2.1.1 = false ∧ firebaseUser r.2.1.1 = user ∧
  form r.2.1.1 = form v ∧
  match user with
  | None => userProfile r.2.1.1 = None ∧ r.2.1.2 = j ∧ r.2.2 = c
  | Some u =>
      let s := fetchAndSyncUserProfile env penv u ((setFirebaseUser user v, j), c) in
      userProfile r.2.1.1 = userProfile s.2.1.1 ∧ r.2.1.2 = s.2.1.2 ∧ r.2.2 = s.2.2
  end.
Proof.
  intros r. subst r. unfold onAuthStateChanged, await, set_page, set_state.
  cbn [fst snd]. destruct user as [u|]; [|done].
  cbn zeta. rewrite !fetchAndSyncUserProfile_run.
  destruct (getDoc_fault penv); [done|].
  destruct (users_db c !! uid u); [done|].
  cbn zeta. destruct (setDoc_fault env); done.
Qed.

Lemma handleUpdateProfile_run env penv user rendered v j c :
  firebaseUser rendered = Some user →
  handleUpdateProfile env penv rendered ((v, j), c) =
  let newFileName :=
    match editPhotoFile rendered with
    | Some f => file_name f
    | None =>
        match userProfile rendered with
        | Some p => string_or (js_get p "photoFileName") "default-avatar.png"
        | None => "default-avatar.png"
        end
    end in
  let fields := profile_fields (editName rendered) newFileName in
  let v1 := setForm (setIsProcessing true) v in
  let j1 := j ++ [CallUpdateDoc (uid user) fields] in
  let failed e c' :=
    (inr tt, ((setForm (setIsProcessing false) v1,
               j1 ++ [Alert ("Failed to update profile: " +:+ err_message e)]), c')) in
  match updateDoc_fault penv with
  | Some e => failed e c
  | None =>
      match users_db c !! uid user with
      | None => failed (not_found (uid user)) c
      | Some d =>
          let c1 := log_call (CallUpdateProfile (uid user) (editName rendered) newFileName)
                      (set_users_db (insert (uid user) (fields ∪ d)) c) in
          match updateProfile_fault env with
          | Some e => failed e c1
          | None =>
              let user' := mkUser (uid user) (user_email user)
                             (Some (editName rendered)) (Some newFileName) in
              (inr tt,
               ((setForm (setIsProcessing false)
                   (setShowProfileModal false
                      (setUserProfile
                         (match userProfile v1 with
                          | Some prev =>
                              Some (<["name" := VString (editName rendered)]>
                                    (<["photoFileName" := VString newFileName]> prev))
                          | None => None
                          end) v1)), j1),
                set_auth (<[uid user := user']> (auth_accounts c1))
                         (if decide (uid <$> auth_currentUser c1 = Some (uid user))
                          then Some user' else auth_currentUser c1) c1))
          end
      end
  end.
Proof.
  intros Hu.
  unfold handleUpdateProfile. rewrite Hu.
  unfold updateDoc, page_call, journal, try_finally, try_catch, await,
    set_page, set_state, lift_cloud, updateProfile, sdk_call, resolve.
  cbn [fst snd].
  destruct (updateDoc_fault penv); [reflexivity|].
  cbn [fst snd].
  destruct (users_db c !! uid user); [|reflexivity].
  cbn [fst snd]. destruct (updateProfile_fault env); reflexivity.
Qed.

Lemma profile_fields_union name photo (d : JsObject) :
  profile_fields name photo ∪ d =
  <["name" := VString name]> (<["photoFileName" := VString photo]> d).
Proof.
  unfold profile_fields. rewrite <-!insert_union_l. by rewrite (left_id ∅ (∪)).
Qed.

(** X21: a profile update whose two calls succeed overwrites the name and
    the photo reference of the stored profile and leaves its other fields
    (the e-mail) as they were, sets the identity's display name and photo
    reference to the same values, shows no dialog, closes the dialog window
    and ends processing.  The photo reference is the new file's name, or
    else the one of the rendered profile, or else "default-avatar.png";
    the name is stored as typed, even if empty.  A page that held the
    stored profile holds the new stored profile afterwards. *)
Theorem update_profile_success env penv user rendered v j c d :
  firebaseUser rendered = Some user →
  updateDoc_fault penv = None → users_db c !! uid user = Some d →
  updateProfile_fault env = None →
  let photo :=
    match editPhotoFile rendered, userProfile rendered with
    | Some f, _ => file_name f
    | None, Some p => string_or (js_get p "photoFileName") "default-avatar.png"
    | None, None => "default-avatar.png"
    end in
  let stored := <["name" := VString (editName rendered)]>
                  (<["photoFileName" := VString photo]> d) in
  let r := handleUpdateProfile env penv rendered ((v, j), c) in
  r.1 = inr tt ∧
  users_db r.2.2 = <[uid user := stored]> (users_db c) ∧
  stored !! "email" = d !! "email" ∧
  auth_accounts r.2.2 =
    <[uid user := mkUser (uid user) (user_email user) (Some (editName rendered))
                    (Some photo)]> (auth_accounts c) ∧
  r.2.1.2 = j ++ [CallUpdateDoc (uid user) (profile_fields (editName rendered) photo)] ∧
  showProfileModal r.2.1.1 = false ∧ isProcessing (form r.2.1.1) = false ∧
  (userProfile v = Some d → userProfile r.2.1.1 = Some stored).
Proof.
  intros Hu HD Hd HP photo stored r. subst r.
  rewrite (handleUpdateProfile_run env penv user rendered v j c Hu), HD, Hd, HP.
  cbn zeta. cbn [fst snd].
  assert (photo = match editPhotoFile rendered with
                  | Some f => file_name f
                  | None => match userProfile rendered with
                            | Some p => string_or (js_get p "photoFileName")
                                          "default-avatar.png"
                            | None => "default-avatar.png"
                            end
                  end) as <-
    by (subst photo; destruct (editPhotoFile rendered), (userProfile rendered); done).
  split; [done|]. split; [simpl; by rewrite profile_fields_union|].
  split; [subst stored; by rewrite !lookup_insert_ne|].
  split; [done|]. split; [done|]. split; [done|]. split; [done|].
  simpl. intros ->. done.
Qed.

Lemma update_profile_success_witness :
  let c := set_users_db (insert "u1" (profile_doc "Alice" "alice@example.com" "a.png"))
             empty_cloud in
  let v := mkLoginPage (mkLogin "" "" "" "" None "" false) (Some alice)
             (Some (profile_doc "Alice" "alice@example.com" "a.png")) false
             signin true "Alicia" None in
  let r := handleUpdateProfile (env_at 1000) page_ok_env v ((v, []), c) in
  users_db r.2.2 !! "u1" = Some (profile_doc "Alicia" "alice@example.com" "a.png") ∧
  userProfile r.2.1.1 = Some (profile_doc "Alicia" "alice@example.com" "a.png").
Proof.
  intros c v r.
  destruct (update_profile_success (env_at 1000) page_ok_env alice v v [] c
              (profile_doc "Alice" "alice@example.com" "a.png")
              eq_refl eq_refl eq_refl eq_refl)
    as (_ & H1 & _ & _ & _ & _ & _ & H2).
  fold r in H1, H2. split.
  - rewrite H1. by vm_compute.
  - rewrite H2 by reflexivity. by vm_compute.
Defined.

(** X22: a profile update does not create a missing profile document.
    When the document update fails, by a fault or because the user has no
    profile document, nothing is written, the identity is not touched (the
    second call is not issued), the page keeps its profile and its dialog
    window, processing ends, and the alert "Failed to update profile: "
    with the failure's message is shown. *)
Theorem update_profile_not_written env penv user rendered v j c e :
  firebaseUser rendered = Some user →
  updateDoc_fault penv = Some e ∨
    (updateDoc_fault penv = None ∧ users_db c !! uid user = None ∧
     e = not_found (uid user)) →
  let r := handleUpdateProfile env penv rendered ((v, j), c) in
  r.1 = inr tt ∧ r.2.2 = c ∧
  userProfile r.2.1.1 = userProfile v ∧
  showProfileModal r.2.1.1 = showProfileModal v ∧
  isProcessing (form r.2.1.1) = false ∧
  ∃ fields,
    r.2.1.2 = j ++ [CallUpdateDoc (uid user) fields;
                    Alert ("Failed to update profile: " +:+ err_message e)].
Proof.
  intros Hu H r. subst r.
  rewrite (handleUpdateProfile_run env penv user rendered v j c Hu). cbn zeta.
  destruct H as [->|(-> & -> & ->)]; cbn [fst snd];
    (repeat split; try done; eexists; by rewrite <-app_assoc).
Qed.

Lemma update_profile_not_written_witness :
  let v := mkLoginPage (mkLogin "" "" "" "" None "" false) (Some alice) None false
             signin true "Alicia" None in
  let r := handleUpdateProfile (env_at 1000) page_ok_env v ((v, []), empty_cloud) in
  r.2.2 = empty_cloud ∧ showProfileModal r.2.1.1 = true.
Proof.
  intros v r.
  destruct (update_profile_not_written (env_at 1000) page_ok_env alice v v []
              empty_cloud (not_found "u1") eq_refl)
    as (_ & H1 & _ & H2 & _).
  - right. repeat split.
  - split; [exact H1|exact H2].
Defined.



Lemma handleDeleteAccount_run env penv user rendered v j c :
  firebaseUser rendered = Some user → confirm_answer penv = true →
  handleDeleteAccount env penv rendered ((v, j), c) =
  let j1 := j ++ [Confirm "Are you sure you want to delete your account? This cannot be undone.";
                  CallDeleteProfile (uid user)] in
  let v' := setForm (setIsProcessing false) (setForm (setIsProcessing true) v) in
  let alert e := Alert ("Failed to delete account (Requires recent login): "
                        +:+ err_message e) in
  match deleteDoc_fault env with
  | Some e => (inr tt, ((v', j1 ++ [alert e]), c))
  | None =>
      let c1 := set_users_db (delete (uid user)) c in
      match deleteUser_fault penv with
      | Some e => (inr tt, ((v', j1 ++ [CallDeleteUser (uid user); alert e]), c1))
      | None =>
          (inr tt,
           ((v', j1 ++ [CallDeleteUser (uid user)]),
            set_auth (delete (uid user) (auth_accounts c1))
                     (if decide (uid <$> auth_currentUser c1 = Some (uid user))
                      then None else auth_currentUser c1) c1))
      end
  end.
Proof.
  intros Hu Hc.
  unfold handleDeleteAccount. rewrite Hu.
  unfold deleteProfile, deleteUser, page_call, journal, try_finally, try_catch, await,
    set_page, set_state, resolve.
  cbn [fst snd]. rewrite Hc. cbn [negb fst snd].
  destruct (deleteDoc_fault env); cbn [fst snd].
  { by rewrite <-!app_assoc. }
  destruct (deleteUser_fault penv); cbn [fst snd]; by rewrite <-!app_assoc.
Qed.

(** X24: without a signed-in user the account deletion does nothing, and
    when the user declines the confirmation it has only asked: no call is
    issued, nothing is deleted, and the page, its processing flag
    included, is as before. *)
Theorem delete_account_declined env penv rendered v j c :
  firebaseUser rendered = None ∨ confirm_answer penv = false →
  let r := handleDeleteAccount env penv rendered ((v, j), c) in
  r.1 = inr tt ∧ r.2.1.1 = v ∧ r.2.2 = c ∧
  r.2.1.2 = match firebaseUser rendered with
            | None => j
            | Some _ =>
                j ++ [Confirm "Are you sure you want to delete your account? This cannot be undone."]
            end.
Proof.
  intros H r. subst r. unfold handleDeleteAccount.
  destruct (firebaseUser rendered) as [user|]; [|done].
  destruct H as [?|H]; [done|].
  unfold await, journal, set_state. cbn [fst snd]. rewrite H. done.
Qed.

Lemma delete_account_declined_witness :
  let v := mkLoginPage (mkLogin "" "" "" "" None "" false) (Some alice) None false
             signin true "" None in
  let r := handleDeleteAccount (env_at 1000) (mkPageEnv None None None None false) v
             ((v, []), cloud_one_file) in
  r.2.1.1 = v ∧ r.2.2 = cloud_one_file.
Proof.
  intros v r.
  destruct (delete_account_declined (env_at 1000) (mkPageEnv None None None None false)
              v v [] cloud_one_file) as (_ & H1 & H2 & _).
  - by right.
  - split; [exact H1|exact H2].
Defined.

(** X25: a confirmed account deletion removes the profile document first
    and the identity second, never rejects and always ends processing.
    If removing the document fails, nothing is removed and the identity
    deletion is not attempted.  If removing the identity fails, the profile
    document is gone while the identity and its session remain.  If both
    succeed, both are gone and the session has ended.  Either failure is
    reported with the same "(Requires recent login)" alert. *)
Theorem delete_account_outcome env penv user rendered v j c :
  firebaseUser rendered = Some user → confirm_answer penv = true →
  uid <$> auth_currentUser c = Some (uid user) →
  let r := handleDeleteAccount env penv rendered ((v, j), c) in
  let alert e := Alert ("Failed to delete account (Requires recent login): "
                        +:+ err_message e) in
  r.1 = inr tt ∧ isProcessing (form r.2.1.1) = false ∧
  match deleteDoc_fault env, deleteUser_fault penv with
  | Some e, _ =>
      r.2.2 = c ∧ last r.2.1.2 = Some (alert e) ∧
      (CallDeleteUser (uid user) ∈ r.2.1.2 → CallDeleteUser (uid user) ∈ j)
  | None, Some e =>
      users_db r.2.2 = delete (uid user) (users_db c) ∧
      auth_accounts r.2.2 = auth_accounts c ∧
      auth_currentUser r.2.2 = auth_currentUser c ∧
      last r.2.1.2 = Some (alert e)
  | None, None =>
      users_db r.2.2 = delete (uid user) (users_db c) ∧
      auth_accounts r.2.2 = delete (uid user) (auth_accounts c) ∧
      auth_currentUser r.2.2 = None ∧
      files_db r.2.2 = files_db c ∧ storage r.2.2 = storage c
  end.
Proof.
  intros Hu Hc Hcur r alert. subst r.
  rewrite (handleDeleteAccount_run env penv user rendered v j c Hu Hc). cbn zeta.
  destruct (deleteDoc_fault env) as [e|]; cbn [fst snd].
  { split; [done|]. split; [done|]. split; [done|].
    split; [by rewrite last_snoc|].
    rewrite !elem_of_app, !elem_of_cons, !elem_of_nil.
    intros [[?|[[=]|[[=]|[]]]]|[[=]|[]]]. done. }
  destruct (deleteUser_fault penv) as [e|]; cbn [fst snd].
  { repeat split; try done.
    by rewrite (assoc_L (++) _ [CallDeleteUser (uid user)] [alert e]), last_snoc. }
  repeat split; try done. simpl. by rewrite decide_True.
Qed.

Lemma delete_account_outcome_witness :
  let c := set_auth {["u1" := alice]} (Some alice)
             (set_users_db (insert "u1" (profile_doc "Alice" "alice@example.com" "a.png"))
                empty_cloud) in
  let v := mkLoginPage (mkLogin "" "" "" "" None "" false) (Some alice) None false
             signin true "" None in
  let penv := mkPageEnv None None (Some (mkError "auth/requires-recent-login" "login again"))
                None true in
  let r := handleDeleteAccount (env_at 1000) penv v ((v, []), c) in
  users_db r.2.2 !! "u1" = None ∧ auth_accounts r.2.2 !! "u1" = Some alice.
Proof.
  intros c v penv r.
  destruct (delete_account_outcome (env_at 1000) penv alice v v [] c
              eq_refl eq_refl eq_refl) as (_ & _ & H1 & H2 & _).
  fold r in H1, H2. rewrite H1, H2. split; by vm_compute.
Defined.

(** X26: an identity that survived a failed account deletion gets a
    profile document again.  After a confirmed deletion in which the
    profile document was removed and the identity deletion failed, the next
    profile synchronisation for that user (with no call failing) finds no
    document and writes a new one that is built from the identity alone:
    the identity's display name (or "User"), its e-mail, and its photo
    reference (or "default-avatar.png").  The removed document plays no
    part in it: the new document is equal to the removed one exactly when
    the removed one already held these three values. *)
Theorem delete_account_then_sync env penv env' penv' user rendered v j c e :
  firebaseUser rendered = Some user → confirm_answer penv = true →
  deleteDoc_fault env = None → deleteUser_fault penv = Some e →
  getDoc_fault penv' = None → setDoc_fault env' = None →
  let r := handleDeleteAccount env penv rendered ((v, j), c) in
  let s := fetchAndSyncUserProfile env' penv' user r.2 in
  let fresh_profile :=
    profile_doc (or_else (user_displayName user) "User") (user_email user)
                (or_else (user_photoURL user) "default-avatar.png") in
  users_db r.2.2 !! uid user = None ∧
  users_db s.2.2 !! uid user = Some fresh_profile ∧
  userProfile s.2.1.1 = Some fresh_profile ∧
  ∀ d, users_db c !! uid user = Some d →
       (users_db s.2.2 !! uid user = Some d ↔ d = fresh_profile).
Proof.
  intros Hu Hc HD HU HG HS r s fresh_profile. subst s r.
  rewrite (handleDeleteAccount_run env penv user rendered v j c Hu Hc), HD, HU.
  cbn zeta. cbn [fst snd].
  rewrite fetchAndSyncUserProfile_run, HG. cbn zeta.
  assert (users_db (set_users_db (delete (uid user)) c) !! uid user = None) as Hnone
    by (simpl; apply lookup_delete_eq).
  rewrite Hnone, HS. cbn [fst snd].
  assert (or_else (Some (user_email user)) "" = user_email user) as ->.
  { unfold or_else. destruct (decide (user_email user = "")) as [->|]; done. }
  assert (∀ c0, users_db (set_users_db (insert (uid user) fresh_profile) c0) !! uid user
                = Some fresh_profile) as Hnew
    by (intros; simpl; apply lookup_insert_eq).
  split; [done|]. split; [apply Hnew|]. split; [done|].
  intros d _. subst fresh_profile. rewrite Hnew. split; congruence.
Qed.

Lemma delete_account_then_sync_witness :
  let alice' := mkUser "u1" "alice@example.com" (Some "Alice") (Some "a.png") in
  let c := set_auth {["u1" := alice']} (Some alice')
             (set_users_db (insert "u1" (profile_doc "Alicia" "alice@example.com" "b.png"))
                empty_cloud) in
  let v := mkLoginPage (mkLogin "" "" "" "" None "" false) (Some alice')
             (Some (profile_doc "Alicia" "alice@example.com" "b.png")) false
             signin true "" None in
  let penv := mkPageEnv None None (Some (mkError "auth/requires-recent-login" "login again"))
                None true in
  let r := handleDeleteAccount (env_at 1000) penv v ((v, []), c) in
  let s := fetchAndSyncUserProfile (env_at 1000) page_ok_env alice' r.2 in
  users_db c !! "u1" = Some (profile_doc "Alicia" "alice@example.com" "b.png") ∧
  users_db s.2.2 !! "u1" = Some (profile_doc "Alice" "alice@example.com" "a.png") ∧
  users_db s.2.2 !! "u1" ≠ users_db c !! "u1".
Proof.
  intros alice' c v penv r s.
  destruct (delete_account_then_sync (env_at 1000) penv (env_at 1000) page_ok_env alice'
              v v [] c (mkError "auth/requires-recent-login" "login again")
              eq_refl eq_refl eq_refl eq_refl eq_refl eq_refl) as (_ & H & _ & Hd).
  split; [reflexivity|]. split; [exact H|].
  intros Heq.
  assert (profile_doc "Alicia" "alice@example.com" "b.png"
          = profile_doc "Alice" "alice@example.com" "a.png") as Hbad
    by (apply (Hd _ eq_refl); exact Heq).
  apply (f_equal (λ m : JsObject, m !! "name")) in Hbad. vm_compute in Hbad. discriminate.
Defined.


(** * Registration and the auth-state listener *)

(** Over the page state, and with nothing run at the notification, the
    handler is [handleFirebaseRegister]. *)
Lemma handleFirebaseRegister_page_alone env rendered v j c :
  handleFirebaseRegister_page env (λ _, resolve tt) rendered ((v, j), c) =
  let r := handleFirebaseRegister env rendered (form v, c) in
  (r.1, ((setForm (λ _, r.2.1) v, j), r.2.2)).
Proof.
  unfold handleFirebaseRegister_page, handleFirebaseRegister.
  unfold await at 1 5, set_page at 1, set_state at 1 6. cbn [fst snd].
  destruct (decide (password rendered ≠ repeatPassword rendered)); [reflexivity|].
  unfold try_finally, try_catch, await, set_page, set_state, lift_cloud,
    createUserWithEmailAndPassword, updateProfile, setDoc, sdk_call, resolve.
  cbn [fst snd].
  destruct (createUser_result env) as [e|user]; cbn [fst snd].
  { destruct (bool_decide _); reflexivity. }
  destruct (updateProfile_fault env) as [e|]; cbn [fst snd].
  { destruct (bool_decide _); reflexivity. }
  destruct (setDoc_fault env) as [e|]; cbn [fst snd].
  { destruct (bool_decide _); reflexivity. }
  reflexivity.
Qed.

Lemma or_else_email (s : string) : or_else (Some s) "" = s.
Proof. unfold or_else. destruct (decide (s = "")) as [->|]; done. Qed.

(** Registration with the listener, when the identity is created, has no
    profile document yet, and the listener's two calls succeed. *)
Lemma register_with_listener_run env env_l penv_l rendered user v j c :
  password rendered = repeatPassword rendered →
  createUser_result env = inr user → users_db c !! uid user = None →
  getDoc_fault penv_l = None → setDoc_fault env_l = None →
  register_with_listener env env_l penv_l rendered ((v, j), c) =
  let name := or_else (Some (displayName rendered)) "New User" in
  let photo := match photoFile rendered with
               | Some f => file_name f
               | None => "default-avatar.png"
               end in
  let shown e := if bool_decide (err_code e = "auth/email-already-in-use")
                 then "user already exist, sign in?" else err_message e in
  let default := profile_doc (or_else (user_displayName user) "User") (user_email user)
                             (or_else (user_photoURL user) "default-avatar.png") in
  let c0 := log_call (CallCreateUser (email rendered) (password rendered)) c in
  let c1 := set_users_db (insert (uid user) default)
              (log_call (CallSetDoc (uid user) default)
                 (set_auth (<[uid user := user]> (auth_accounts c0)) (Some user) c0)) in
  let v1 := setLoginLoading false
              (setUserProfile (Some default)
                 (setFirebaseUser (Some user)
                    (setForm (setIsProcessing true) (setForm (setErrorMsg "") v)))) in
  let j1 := j ++ [CallGetDoc (uid user)] in
  let failed e c' :=
    (inr tt, ((setForm (setIsProcessing false) (setForm (setErrorMsg (shown e)) v1), j1),
              c')) in
  let c2 := log_call (CallUpdateProfile (uid user) name photo) c1 in
  match updateProfile_fault env with
  | Some e => failed e c2
  | None =>
      let user' := mkUser (uid user) (user_email user) (Some name) (Some photo) in
      let c3 := log_call (CallSetDoc (uid user) (profile_doc name (email rendered) photo))
                  (set_auth (<[uid user := user']> (auth_accounts c2)) (Some user') c2) in
      match setDoc_fault env with
      | Some e => failed e c3
      | None =>
          (inr tt,
           ((setForm (setIsProcessing false) v1, j1),
            set_users_db (insert (uid user) (profile_doc name (email rendered) photo)) c3))
      end
  end.
Proof.
  intros Hpw HC Hnone HG HS.
  unfold register_with_listener, handleFirebaseRegister_page.
  unfold await at 1, set_page at 1, set_state at 1. cbn [fst snd].
  rewrite decide_False by (intros H; by apply H).
  unfold onAuthStateChanged, try_finally, try_catch, await, set_page, set_state,
    lift_cloud, createUserWithEmailAndPassword, updateProfile, setDoc, sdk_call,
    resolve.
  cbn [fst snd]. rewrite HC. cbn [fst snd].
  rewrite fetchAndSyncUserProfile_run, HG. cbn zeta.
  change (users_db (set_auth _ _ (log_call _ c)) !! uid user)
    with (users_db c !! uid user).
  rewrite Hnone, HS, or_else_email. cbn [fst snd].
  destruct (updateProfile_fault env) as [e|]; cbn [fst snd].
  { destruct (bool_decide _); reflexivity. }
  unfold log_call, set_auth, set_users_db.
  cbn [auth_currentUser auth_accounts storage files_db users_db sdk_log fst snd].
  rewrite decide_True by reflexivity.
  destruct (setDoc_fault env) as [e|]; cbn [fst snd].
  { destruct (bool_decide _); reflexivity. }
  reflexivity.
Qed.



(** X28: a registration in which no call fails, on the page, with the
    auth-state listener's synchronisation run at the moment the identity
    has been created (and finished before the handler's next call).  The
    synchronisation finds no document, writes the default profile and
    puts it on the page; the registration then overwrites the document
    with its own profile.  So the store ends with the registration's
    profile while the page still holds the default one; the calls are, in
    order, the creation, the listener's write, the display-name update
    and the registration's write. *)
Theorem register_with_listener_outcome env env_l penv_l rendered v j c user :
  password rendered = repeatPassword rendered → createUser_result env = inr user →
  updateProfile_fault env = None → setDoc_fault env = None →
  users_db c !! uid user = None →
  getDoc_fault penv_l = None → setDoc_fault env_l = None →
  let r := register_with_listener env env_l penv_l rendered ((v, j), c) in
  let name := if decide (displayName rendered = "") then "New User"
              else displayName rendered in
  let photo := match photoFile rendered with
               | Some f => file_name f
               | None => "default-avatar.png"
               end in
  let default := profile_doc (or_else (user_displayName user) "User") (user_email user)
                             (or_else (user_photoURL user) "default-avatar.png") in
  let written := profile_doc name (email rendered) photo in
  r.1 = inr tt ∧
  errorMsg (form r.2.1.1) = "" ∧ isProcessing (form r.2.1.1) = false ∧
  login_loading r.2.1.1 = false ∧
  uid <$> firebaseUser r.2.1.1 = Some (uid user) ∧
  userProfile r.2.1.1 = Some default ∧
  users_db r.2.2 = <[uid user := written]> (users_db c) ∧
  r.2.1.2 = j ++ [CallGetDoc (uid user)] ∧
  sdk_log r.2.2 = sdk_log c ++ [CallCreateUser (email rendered) (password rendered);
                                CallSetDoc (uid user) default;
                                CallUpdateProfile (uid user) name photo;
                                CallSetDoc (uid user) written].
Proof.
  intros Hpw HC HU HW Hnone HG HS r name photo default written. subst r.
  rewrite (register_with_listener_run env env_l penv_l rendered user v j c
             Hpw HC Hnone HG HS).
  cbn zeta. rewrite HU, HW. cbn [fst snd].
  repeat split.
  - simpl. apply insert_insert_eq.
  - simpl. rewrite <- !app_assoc. reflexivity.
Qed.

Lemma register_with_listener_outcome_witness :
  let rendered := mkLogin "alice@example.com" "secret1" "secret1" "Alice" None "" false in
  let v := mkLoginPage rendered None None true signup false "" None in
  let r := register_with_listener (env_at 1000) (env_at 1000) page_ok_env rendered
             ((v, []), empty_cloud) in
  userProfile r.2.1.1 = Some (profile_doc "User" "alice@example.com" "default-avatar.png") ∧
  users_db r.2.2 = {["u1" := profile_doc "Alice" "alice@example.com" "default-avatar.png"]}.
Proof.
  intros rendered v r.
  destruct (register_with_listener_outcome (env_at 1000) (env_at 1000) page_ok_env
              rendered v [] empty_cloud alice
              eq_refl eq_refl eq_refl eq_refl eq_refl eq_refl eq_refl)
    as (_ & _ & _ & _ & _ & H1 & H2 & _).
  split; [exact H1|exact H2].
Defined.
